(** * Comic page and bubble geometry: a shallow embedding

    The three Python modules [make_comic_page.py], [thought_bubble.py] and
    [speechbobs.py] are embedded function by function.

    Number model.  Python's [int] and [float] values are idealised as the
    real numbers [R] of the Standard Library: [+ - * /] are the field
    operations, [math.sqrt], [math.sin] and [math.cos] are [sqrt], [sin]
    and [cos], [math.radians a] is [a * PI / 180], and a decimal literal
    such as [0.9] is the rational [9 / 10].  Rounding is not modelled, so
    every equation below is an equation between real numbers.

    Effects.  A true division whose divisor is zero raises
    [ZeroDivisionError] in Python; [py_div] keeps that, and every function
    that divides by a value it computed lives in the error monad [res].
    The drawing surface ([svgwrite.Drawing]) is the list of shapes added so
    far, and [print] appends a line to a log; both are threaded through the
    record [World].  [math.sqrt] is only ever applied to a sum of two
    squares, where it does not raise.

    What the idealisation leaves out.  The reals have no largest number,
    so the [OverflowError] that Python's [**] raises when a float result
    leaves the float range is absent from the idealised functions; it is
    modelled by [py_sq] and by [get_normal_shift_vector_ranged], the same
    function with the float range taken into account, and the two are
    related by lemmas.  A test [== 0] is decided exactly on the reals,
    whereas the floats decide it on rounded values: the balance of the
    lightning joints, which depends on which way the parallel test goes,
    is stated for non-parallel centre segments.  The drawing surface is taken to
    accept every shape: the attribute validation of [svgwrite] (a
    [TypeError] on a string that is not a colour) and a failing [save] are
    outside the model, so a statement that a drawing is returned is about
    valid attribute strings and a save that succeeds. *)

From Stdlib Require Import Reals Lra Lia List ZArith String Bool DecimalString.
Import ListNotations.
Open Scope R_scope.

(** ** Exceptions and the error monad *)

Inductive exn : Type :=
| ZeroDivisionError
| OverflowError
| OutOfFuel.

Inductive res (A : Type) : Type :=
| Ok (a : A)
| Raise (e : exn).
Arguments Ok {A} a.
Arguments Raise {A} e.

Definition bind {A B : Type} (m : res A) (k : A -> res B) : res B :=
  match m with
  | Ok a => k a
  | Raise e => Raise e
  end.

Notation "x <- m ;; k" := (bind m (fun x => k))
  (at level 61, m at next level, right associativity).
Notation "' pat <- m ;; k" := (bind m (fun x => match x with pat => k end))
  (at level 61, pat pattern, m at next level, right associativity).

(** Python's [a / b] on numbers. *)
Definition py_div (a b : R) : res R :=
  if Req_dec_T b 0 then Raise ZeroDivisionError else Ok (a / b).

(** The largest finite float, [(2^53 - 1) * 2^971]. *)
Definition FLOAT_MAX : R := (2 ^ 53 - 1) * 2 ^ 971.

(** Python's [x ** 2] on a float, with the float range: the result is the
    square, and [OverflowError] is raised when the square is beyond the
    largest finite float. *)
Definition py_sq (x : R) : res R :=
  if Rlt_dec FLOAT_MAX (x ^ 2) then Raise OverflowError else Ok (x ^ 2).

Definition Point : Type := (R * R)%type.

(** [math.radians]. *)
Definition radians (deg : R) : R := deg * PI / 180.

(** Euclidean length of a vector. *)
Definition norm (v : Point) : R := sqrt (fst v ^ 2 + snd v ^ 2).

Definition translate (d p : Point) : Point := (fst p + fst d, snd p + snd d).

(** ** Shapes of the drawing surface

    A shape carries its geometry and the attributes the callers vary:
    fill, stroke, stroke width and whether line caps and joins are round.
    A text carries its content and insertion point; its font, size, anchor
    and colour are the same constants at every call.  A path is kept as the
    sequence of commands that the source formats into the [d] string. *)

Record Style : Type := mkStyle {
  fill : string;
  stroke : option string;
  stroke_width : option R;
  round_joins : bool
}.

Inductive PathSegment : Type :=
| MoveTo (p : Point)
| ArcTo (rx ry rotation : R) (large_arc sweep : bool) (p : Point)
| QuadTo (control p : Point).

Inductive Shape : Type :=
| Rect (insert size : Point) (st : Style)
| Polygon (points : list Point) (st : Style)
| Path (d : list PathSegment) (st : Style)
| Circle (center : Point) (r : R) (st : Style)
| Text (content : string) (insert : Point).

Record World : Type := mkWorld {
  shapes : list Shape;
  stdout : list string;
  saved_as : option string
}.

(** [svgwrite.Drawing(filename, ...)], [dwg.add], [print] and [dwg.save]. *)
Definition new_drawing : World := mkWorld [] [] None.
Definition dwg_add (s : Shape) (w : World) : World :=
  mkWorld (shapes w ++ [s]) (stdout w) (saved_as w).
Definition print (line : string) (w : World) : World :=
  mkWorld (shapes w) (stdout w ++ [line]) (saved_as w).
Definition dwg_save (filename : string) (w : World) : World :=
  mkWorld (shapes w) (stdout w) (Some filename).

(** The format specification [{n:02d}] of an integer. *)
Definition fmt_02d (n : Z) : string :=
  let s := NilZero.string_of_int (Z.to_int n) in
  if (String.length s <? 2)%nat then ("0" ++ s)%string else s.

(** A [dict] with string keys and its [get(key, default)]. *)
Definition dict : Type := list (string * R).

Fixpoint dict_get (d : dict) (key : string) (default : R) : R :=
  match d with
  | [] => default
  | (k, v) :: d' => if String.eqb k key then v else dict_get d' key default
  end.

(** A [dict] with integer keys and string values (the shadow palette) and
    its [get(key, default)]. *)
Fixpoint colors_get (table : list (Z * string)) (k : Z) (default : string)
    : string :=
  match table with
  | [] => default
  | (k', v) :: table' => if (k' =? k)%Z then v else colors_get table' k default
  end.

(** * make_comic_page.py *)

Module MakeComicPage.

(** ** Geometry helpers *)

Definition add_shift (point shift : Point) : Point :=
  (fst point + fst shift, snd point + snd shift).

Definition get_normal_shift_vector
    (p1 p2 : Point) (magnitude : R) (direction : string) : res Point :=
  let V_x := fst p2 - fst p1 in
  let V_y := snd p2 - snd p1 in
  let N := if String.eqb direction "right" then (V_y, - V_x) else (- V_y, V_x) in
  let N_x := fst N in
  let N_y := snd N in
  let N_magnitude := sqrt (N_x ^ 2 + N_y ^ 2) in
  if Req_dec_T N_magnitude 0 then Ok (0, 0)
  else
    U_x <- py_div N_x N_magnitude ;;
    U_y <- py_div N_y N_magnitude ;;
    let S_x := U_x * magnitude in
    let S_y := U_y * magnitude in
    Ok (S_x, S_y).

(** [get_normal_shift_vector] with the float range taken into account:
    the two squares [N_x**2] and [N_y**2] are computed by [py_sq] and may
    raise [OverflowError]; everything else is as above. *)
Definition get_normal_shift_vector_ranged
    (p1 p2 : Point) (magnitude : R) (direction : string) : res Point :=
  let V_x := fst p2 - fst p1 in
  let V_y := snd p2 - snd p1 in
  let N := if String.eqb direction "right" then (V_y, - V_x) else (- V_y, V_x) in
  let N_x := fst N in
  let N_y := snd N in
  N_x_sq <- py_sq N_x ;;
  N_y_sq <- py_sq N_y ;;
  let N_magnitude := sqrt (N_x_sq + N_y_sq) in
  if Req_dec_T N_magnitude 0 then Ok (0, 0)
  else
    U_x <- py_div N_x N_magnitude ;;
    U_y <- py_div N_y N_magnitude ;;
    let S_x := U_x * magnitude in
    let S_y := U_y * magnitude in
    Ok (S_x, S_y).

(** Coefficients of the line [a * x + b * y = c] through two points. *)
Definition line_coeffs (p q : Point) : R * R * R :=
  let a := snd q - snd p in
  let b := fst p - fst q in
  (a, b, a * fst p + b * snd p).

Definition get_line_intersection (p1 p2 p3 p4 : Point) : res (option Point) :=
  let '(a1, b1, c1) := line_coeffs p1 p2 in
  let '(a2, b2, c2) := line_coeffs p3 p4 in
  let det := a1 * b2 - a2 * b1 in
  if Req_dec_T det 0 then Ok None
  else
    x <- py_div (b2 * c1 - b1 * c2) det ;;
    y <- py_div (a1 * c2 - a2 * c1) det ;;
    Ok (Some (x, y)).

(** Cross product of the direction vectors [p2 - p1] and [p4 - p3]. *)
Definition cross (p1 p2 p3 p4 : Point) : R :=
  (fst p2 - fst p1) * (snd p4 - snd p3) - (snd p2 - snd p1) * (fst p4 - fst p3).

(** [F = get_line_intersection(...)] followed by [if F is None: F = fallback]. *)
Definition intersection_or (p1 p2 p3 p4 fallback : Point) : res Point :=
  r <- get_line_intersection p1 p2 p3 p4 ;;
  Ok (match r with Some p => p | None => fallback end).

(** ** draw_split_panels *)

Section SplitPanels.

Variables (x_start_p1 y_top panel_width panel_height gutter : R).
Variable split_params : dict.

Definition P1_WIDTH : R := (panel_width - gutter) / 2.
Definition x_end_p1 : R := x_start_p1 + P1_WIDTH.
Definition x_start_p2 : R := x_end_p1 + gutter.
Definition x_end_p2 : R := x_start_p2 + P1_WIDTH.
Definition y_bottom : R := y_top + panel_height.

Definition top_x_ratio : R := dict_get split_params "top_x_ratio" (13 / 10).
Definition bot_x_ratio : R := dict_get split_params "bot_x_ratio" (7 / 10).

Definition calc_x_ratio (ratio : R) : R := x_start_p1 + P1_WIDTH * ratio.

(** Branch [split_type == 'straight']: the pair [(p1_points, p2_points)]. *)
Definition straight_points : list Point * list Point :=
  let P1_TOP_L := (calc_x_ratio top_x_ratio, y_top) in
  let P1_BOT_L := (calc_x_ratio bot_x_ratio, y_bottom) in
  let P2_TOP_R := (fst P1_TOP_L + gutter, snd P1_TOP_L) in
  let P2_BOT_R := (fst P1_BOT_L + gutter, snd P1_BOT_L) in
  ([ (x_start_p1, y_top); P1_TOP_L; P1_BOT_L; (x_start_p1, y_bottom) ],
   [ (x_end_p2, y_top); (x_end_p2, y_bottom); (x_start_p2, y_bottom);
     P2_BOT_R; P2_TOP_R ]).

(** Branch [split_type == 'arrow']. *)
Definition arrow_points : list Point * list Point :=
  let mid_y_ratio := dict_get split_params "mid_y_ratio" (5 / 10) in
  let depth_x_ratio := dict_get split_params "depth_x_ratio" (8 / 10) in
  let P1_TOP_L := (calc_x_ratio top_x_ratio, y_top) in
  let P1_MID_L := (calc_x_ratio depth_x_ratio, y_top + panel_height * mid_y_ratio) in
  let P1_BOT_L := (calc_x_ratio bot_x_ratio, y_bottom) in
  let P2_TOP_R := (fst P1_TOP_L + gutter, snd P1_TOP_L) in
  let P2_MID_R := (fst P1_MID_L + gutter, snd P1_MID_L) in
  let P2_BOT_R := (fst P1_BOT_L + gutter, snd P1_BOT_L) in
  ([ (x_start_p1, y_top); P1_TOP_L; P1_MID_L; P1_BOT_L; (x_start_p1, y_bottom) ],
   [ (x_end_p2, y_top); (x_end_p2, y_bottom); (x_start_p2, y_bottom);
     P2_BOT_R; P2_MID_R; P2_TOP_R ]).

(** Branch [split_type == 'lightning']. *)
Definition lightning_points : res (list Point * list Point) :=
  let zig_y_ratio := dict_get split_params "zig_y_ratio" (60 / 100) in
  let zig_depth_x_ratio := dict_get split_params "zig_depth_x_ratio" 1 in
  let zag_y_ratio := dict_get split_params "zag_y_ratio" (55 / 100) in
  let zag_depth_x_ratio := dict_get split_params "zag_depth_x_ratio" (9 / 10) in
  let SHIFT := gutter / 2 in
  let Y_TOP := y_top in
  let Y_BOTTOM := y_bottom in
  (* 1. centre line *)
  let A_C := (calc_x_ratio top_x_ratio, Y_TOP) in
  let B_C := (calc_x_ratio zig_depth_x_ratio, Y_TOP + panel_height * zig_y_ratio) in
  let C_C := (calc_x_ratio zag_depth_x_ratio, Y_TOP + panel_height * zag_y_ratio) in
  let D_C := (calc_x_ratio bot_x_ratio, Y_BOTTOM) in
  (* 2. shift vectors *)
  S_AB_R <- get_normal_shift_vector A_C B_C SHIFT "right" ;;
  S_BC_R <- get_normal_shift_vector B_C C_C SHIFT "right" ;;
  S_CD_R <- get_normal_shift_vector C_C D_C SHIFT "right" ;;
  S_AB_L <- get_normal_shift_vector A_C B_C SHIFT "left" ;;
  S_BC_L <- get_normal_shift_vector B_C C_C SHIFT "left" ;;
  S_CD_L <- get_normal_shift_vector C_C D_C SHIFT "left" ;;
  (* 3. raw shifted points *)
  let E_raw := add_shift A_C S_AB_R in
  let B_prime_AB_R := add_shift B_C S_AB_R in
  let B_prime_BC_R := add_shift B_C S_BC_R in
  let C_prime_BC_R := add_shift C_C S_BC_R in
  let C_prime_CD_R := add_shift C_C S_CD_R in
  let D_prime_R := add_shift D_C S_CD_R in
  let I_raw := add_shift A_C S_AB_L in
  let B_prime_AB_L := add_shift B_C S_AB_L in
  let B_prime_BC_L := add_shift B_C S_BC_L in
  let C_prime_BC_L := add_shift C_C S_BC_L in
  let C_prime_CD_L := add_shift C_C S_CD_L in
  let D_prime_L := add_shift D_C S_CD_L in
  (* 4. the four jagged corners *)
  F <- intersection_or E_raw B_prime_AB_R B_prime_BC_R C_prime_BC_R B_prime_AB_R ;;
  G <- intersection_or B_prime_BC_R C_prime_BC_R C_prime_CD_R D_prime_R C_prime_BC_R ;;
  J <- intersection_or I_raw B_prime_AB_L B_prime_BC_L C_prime_BC_L B_prime_AB_L ;;
  K <- intersection_or B_prime_BC_L C_prime_BC_L C_prime_CD_L D_prime_L C_prime_BC_L ;;
  (* 5. sealing against the top and bottom edges *)
  let TOP_EDGE_P1 := (x_start_p1, Y_TOP) in
  let TOP_EDGE_P2 := (x_end_p2, Y_TOP) in
  let BOT_EDGE_P1 := (x_start_p1, Y_BOTTOM) in
  let BOT_EDGE_P2 := (x_end_p2, Y_BOTTOM) in
  E_top <- intersection_or E_raw F TOP_EDGE_P1 TOP_EDGE_P2 E_raw ;;
  H_bot <- intersection_or G D_prime_R BOT_EDGE_P1 BOT_EDGE_P2 D_prime_R ;;
  I_top <- intersection_or I_raw J TOP_EDGE_P1 TOP_EDGE_P2 I_raw ;;
  L_bot <- intersection_or K D_prime_L BOT_EDGE_P1 BOT_EDGE_P2 D_prime_L ;;
  (* 6. the two polygons *)
  let boundary_L := [I_top; J; K; L_bot] in
  Ok ([ (x_start_p1, y_top) ] ++ boundary_L ++ [ (x_start_p1, y_bottom) ],
      [ (x_end_p2, y_top); (x_end_p2, y_bottom); (x_start_p2, y_bottom);
        H_bot; G; F; E_top ]).

(** The [if / elif / else] on [split_type]: [None] is the fallback branch. *)
Definition split_points (split_type : string)
    : res (option (list Point * list Point)) :=
  if String.eqb split_type "straight" then Ok (Some straight_points)
  else if String.eqb split_type "arrow" then Ok (Some arrow_points)
  else if String.eqb split_type "lightning" then
    pts <- lightning_points ;; Ok (Some pts)
  else Ok None.

Definition panel_style (panel_stroke panel_fill : string) : Style :=
  mkStyle panel_fill (Some panel_stroke) (Some 3) false.

Definition unknown_split_message (split_type : string) : string :=
  ("Error: Unknown split type '" ++ split_type
     ++ "'. Drawing standard rectangles.")%string.

Definition draw_split_panels (dwg : World)
    (panel_stroke panel_fill split_type : string) : res (R * World) :=
  r <- split_points split_type ;;
  match r with
  | None => Ok (x_end_p2, print (unknown_split_message split_type) dwg)
  | Some (p1_points, p2_points) =>
      let dwg1 := dwg_add (Polygon p1_points (panel_style panel_stroke panel_fill)) dwg in
      let dwg2 := dwg_add (Polygon p2_points (panel_style panel_stroke panel_fill)) dwg1 in
      Ok (x_end_p2, dwg2)
  end.

End SplitPanels.

(** ** make_comic_page *)

Definition coord_eqb (a b : Z * Z) : bool :=
  (fst a =? fst b)%Z && (snd a =? snd b)%Z.

(** [(r, c) in split_panels]. *)
Definition coord_in (rc : Z * Z) (split_panels : list (Z * Z)) : bool :=
  existsb (coord_eqb rc) split_panels.

Section Page.

Variables (width height margin gutter : R).
Variables (background panel_stroke panel_fill : string).
Variable split_panels : list (Z * Z).
Variable split_type : string.
Variable split_params : dict.

(** The [while c < total_cols] loop of row [r], whose top edge is [y].
    Every iteration advances [c], so [total_cols - c] iterations are
    enough; [fuel] counts them. *)
Fixpoint cols_loop (fuel : nat) (r total_cols : Z)
    (standard_panel_width panel_height y : R)
    (c : Z) (x : R) (dwg : World) : res World :=
  if (c <? total_cols)%Z then
    match fuel with
    | O => Raise OutOfFuel
    | S fuel' =>
        let is_split_pair :=
          coord_in (r, c) split_panels && (c + 1 <? total_cols)%Z in
        if is_split_pair then
          let split_area_width := standard_panel_width * 2 + gutter in
          '(x1, dwg1) <- draw_split_panels x y split_area_width panel_height
                           gutter split_params dwg
                           panel_stroke panel_fill split_type ;;
          let x2 := if (c + 2 <? total_cols)%Z then x1 + gutter else x1 in
          cols_loop fuel' r total_cols standard_panel_width panel_height y
            (c + 2)%Z x2 dwg1
        else
          let dwg1 :=
            dwg_add (Rect (x, y) (standard_panel_width, panel_height)
                       (panel_style panel_stroke panel_fill)) dwg in
          cols_loop fuel' r total_cols standard_panel_width panel_height y
            (c + 1)%Z (x + standard_panel_width + gutter) dwg1
    end
  else Ok dwg.

(** The [for r, total_cols in enumerate(row_config)] loop. *)
Fixpoint rows_loop (rows : list Z) (r : Z) (panel_height y : R)
    (dwg : World) : res World :=
  match rows with
  | [] => Ok dwg
  | total_cols :: rows' =>
      standard_panel_width <-
        py_div (width - 2 * margin - (IZR total_cols - 1) * gutter)
               (IZR total_cols) ;;
      dwg1 <- cols_loop (Z.to_nat total_cols) r total_cols
                standard_panel_width panel_height y 0%Z margin dwg ;;
      rows_loop rows' (r + 1)%Z panel_height (y + panel_height + gutter) dwg1
  end.

Definition background_rect : Shape :=
  Rect (0, 0) (width, height) (mkStyle background None None false).

Definition make_comic_page (filename : string) (row_config : list Z)
    : res World :=
  let dwg := dwg_add background_rect new_drawing in
  let total_rows := Z.of_nat (List.length row_config) in
  if (total_rows =? 0)%Z then
    Ok (print ("Comic layout saved as " ++ filename ++ " (empty page)")%string
          (dwg_save filename dwg))
  else
    panel_height <-
      py_div (height - 2 * margin - (IZR total_rows - 1) * gutter)
             (IZR total_rows) ;;
    dwg1 <- rows_loop row_config 0%Z panel_height margin dwg ;;
    Ok (print ("Comic layout saved as " ++ filename)%string
          (dwg_save filename dwg1)).

End Page.

End MakeComicPage.

(** * thought_bubble.py *)

Module ThoughtBubble.

Definition FILENAME : string := "bubble_generator.svg".
Definition WIDTH : R := 800.
Definition HEIGHT : R := 600.
Definition CENTER_X : R := WIDTH / 2.
Definition CENTER_Y : R := HEIGHT / 2.
Definition RX : R := 150.
Definition RY : R := 100.
Definition CLOUD_RADIUS : R := 130.

Definition SHADOW_COLORS : list (Z * string) :=
  [ (1%Z, "#E0E0E0"%string); (2%Z, "#C0C0C0"%string);
    (3%Z, "#A0A0A0"%string); (4%Z, "#808080"%string);
    (5%Z, "#606060"%string); (6%Z, "#404040"%string);
    (7%Z, "#303030"%string); (8%Z, "#202020"%string);
    (9%Z, "#101010"%string); (10%Z, "#000000"%string) ].

Definition time_to_angle (hour minute : Z) : R :=
  let h := (hour mod 12)%Z in
  IZR h * 30 + IZR minute * (5 / 10).

(** The value formatted into the path string: the sequence of path
    commands [M], [A], [Q], [Q] with their numbers. *)
Definition calculate_speech_bubble_path
    (angle_degrees offset_x offset_y tail_length : R) : list PathSegment :=
  let ANGLE_RAD := radians angle_degrees in
  let TIP_EXTENSION := tail_length in
  let OFFSET_RAD := radians 5 in
  let CURVE_BEND_ANGLE := radians 2 in
  let CURVE_BEND_RADIUS_RATIO := 6 / 10 in
  let P1_X := (CENTER_X + offset_x) + RX * sin (ANGLE_RAD - OFFSET_RAD) in
  let P1_Y := (CENTER_Y + offset_y) - RY * cos (ANGLE_RAD - OFFSET_RAD) in
  let P2_X := (CENTER_X + offset_x) + RX * sin (ANGLE_RAD + OFFSET_RAD) in
  let P2_Y := (CENTER_Y + offset_y) - RY * cos (ANGLE_RAD + OFFSET_RAD) in
  let R_Tip := RX + TIP_EXTENSION in
  let P_Tip_X := (CENTER_X + offset_x) + R_Tip * sin ANGLE_RAD in
  let P_Tip_Y := (CENTER_Y + offset_y) - R_Tip * cos ANGLE_RAD in
  let R_C1 := RX + TIP_EXTENSION * CURVE_BEND_RADIUS_RATIO in
  let Angle_C1 := ANGLE_RAD + CURVE_BEND_ANGLE in
  let C1_X := (CENTER_X + offset_x) + R_C1 * sin Angle_C1 in
  let C1_Y := (CENTER_Y + offset_y) - R_C1 * cos Angle_C1 in
  let R_C2 := RX + TIP_EXTENSION * CURVE_BEND_RADIUS_RATIO in
  let Angle_C2 := ANGLE_RAD - CURVE_BEND_ANGLE in
  let C2_X := (CENTER_X + offset_x) + R_C2 * sin Angle_C2 in
  let C2_Y := (CENTER_Y + offset_y) - R_C2 * cos Angle_C2 in
  [ MoveTo (P1_X, P1_Y);
    ArcTo RX RY 0 true false (P2_X, P2_Y);
    QuadTo (C1_X, C1_Y) (P_Tip_X, P_Tip_Y);
    QuadTo (C2_X, C2_Y) (P1_X, P1_Y) ].

(** The twelve perimeter points of the cloud. *)
Definition cloud_points (offset_x offset_y : R) : list Point :=
  let CX := CENTER_X + offset_x in
  let CY := CENTER_Y + offset_y in
  let R := CLOUD_RADIUS in
  [ (CX + R * (9 / 10), CY - R * (1 / 10));
    (CX + R * (8 / 10), CY - R * (4 / 10));
    (CX + R * (4 / 10), CY - R * (9 / 10));
    (CX + R * (1 / 10), CY - R * (8 / 10));
    (CX - R * (5 / 10), CY - R * (9 / 10));
    (CX - R * (9 / 10), CY - R * (5 / 10));
    (CX - R * (8 / 10), CY - R * (1 / 10));
    (CX - R * (9 / 10), CY + R * (5 / 10));
    (CX - R * (4 / 10), CY + R * (8 / 10));
    (CX + R * (1 / 10), CY + R * (9 / 10));
    (CX + R * (5 / 10), CY + R * (8 / 10));
    (CX + R * (9 / 10), CY + R * (4 / 10)) ].

Definition cloud_arc (p : Point) : PathSegment := ArcTo 30 30 0 false false p.

Definition calculate_cloud_path (offset_x offset_y : R) : list PathSegment :=
  match cloud_points offset_x offset_y with
  | [] => []
  | p0 :: rest => MoveTo p0 :: map cloud_arc rest ++ [cloud_arc p0]
  end.

Definition NUM_CIRCLES : nat := 3.

(** One iteration of the [for i in range(NUM_CIRCLES)] loop: the tuple
    [(cx, cy, bubble_radius)] appended for index [i]. *)
Definition tail_bubble (angle_degrees offset_x offset_y tail_length : R)
    (i : nat) : R * R * R :=
  let ANGLE_RAD := radians angle_degrees in
  let START_RADIUS := CLOUD_RADIUS + tail_length / INR NUM_CIRCLES in
  let bubble_radius := 5 + (INR NUM_CIRCLES - 1 - INR i) * 3 in
  let distance_from_center := START_RADIUS + INR i * (tail_length / INR NUM_CIRCLES) in
  let cx := (CENTER_X + offset_x) + distance_from_center * sin ANGLE_RAD in
  let cy := (CENTER_Y + offset_y) - distance_from_center * cos ANGLE_RAD in
  (cx, cy, bubble_radius).

Definition calculate_thought_bubble_tail
    (angle_degrees offset_x offset_y tail_length : R) : list (R * R * R) :=
  map (tail_bubble angle_degrees offset_x offset_y tail_length) (seq 0 NUM_CIRCLES).

(** ** create_custom_bubble *)

Definition STROKE_WIDTH : R := 4.
Definition FILL_COLOR : string := "#FFFFFF".
Definition STROKE_COLOR : string := "black".

Definition shadow_style (SHADOW_COLOR : string) : Style :=
  mkStyle SHADOW_COLOR (Some "none"%string) None false.

Definition tail_circle (st : Style) (b : R * R * R) : Shape :=
  let '(cx, cy, r) := b in Circle (cx, cy) r st.

(** [for cx, cy, r in bubbles: dwg.add(dwg.circle(...))]. *)
Definition add_circles (st : Style) (bubbles : list (R * R * R)) (dwg : World)
    : World :=
  fold_left (fun w b => dwg_add (tail_circle st b) w) bubbles dwg.

Definition bubble_text_shape (bubble_text : string) : Shape :=
  Text bubble_text (CENTER_X, CENTER_Y + 10).

Definition create_custom_bubble (bubble_type : string) (angle_degrees : R)
    (hour minute : Z) (shadow_size : R) (shade_level : Z) (tail_length : R)
    (bubble_text : string) : World :=
  let SHADOW_OFFSET_X := shadow_size in
  let SHADOW_OFFSET_Y := shadow_size in
  let SHADOW_COLOR := colors_get SHADOW_COLORS shade_level "#000000" in
  let dwg := new_drawing in
  let dwg :=
    if String.eqb bubble_type "SPEECH" then
      let shadow_path :=
        calculate_speech_bubble_path angle_degrees SHADOW_OFFSET_X
          SHADOW_OFFSET_Y tail_length in
      let dwg := dwg_add (Path shadow_path (shadow_style SHADOW_COLOR)) dwg in
      let main_bubble_path :=
        calculate_speech_bubble_path angle_degrees 0 0 tail_length in
      dwg_add (Path main_bubble_path
                 (mkStyle FILL_COLOR (Some STROKE_COLOR) (Some STROKE_WIDTH) true))
              dwg
    else if String.eqb bubble_type "THOUGHT" then
      let shadow_cloud_path :=
        calculate_cloud_path SHADOW_OFFSET_X SHADOW_OFFSET_Y in
      let dwg := dwg_add (Path shadow_cloud_path (shadow_style SHADOW_COLOR)) dwg in
      let main_cloud_path := calculate_cloud_path 0 0 in
      let dwg :=
        dwg_add (Path main_cloud_path
                   (mkStyle FILL_COLOR (Some STROKE_COLOR) (Some STROKE_WIDTH) false))
                dwg in
      let shadow_tail_bubbles :=
        calculate_thought_bubble_tail angle_degrees SHADOW_OFFSET_X
          SHADOW_OFFSET_Y tail_length in
      let dwg := add_circles (shadow_style SHADOW_COLOR) shadow_tail_bubbles dwg in
      let main_tail_bubbles :=
        calculate_thought_bubble_tail angle_degrees 0 0 tail_length in
      add_circles
        (mkStyle FILL_COLOR (Some STROKE_COLOR) (Some (STROKE_WIDTH / 2)) false)
        main_tail_bubbles dwg
    else dwg in
  let dwg := dwg_add (bubble_text_shape bubble_text) dwg in
  let dwg := dwg_save FILENAME dwg in
  print ("Successfully generated " ++ bubble_type ++ " bubble named '"
           ++ FILENAME ++ "' with text: '" ++ bubble_text
           ++ "' and position corresponding to " ++ fmt_02d hour ++ ":"
           ++ fmt_02d minute ++ ".")%string dwg.

End ThoughtBubble.

(** * speechbobs.py *)

Module SpeechBobs.

Definition FILENAME : string := "speech_bubble.svg".
Definition WIDTH : R := 800.
Definition HEIGHT : R := 600.
Definition CENTER_X : R := WIDTH / 2.
Definition CENTER_Y : R := HEIGHT / 2.
Definition RX : R := 150.
Definition RY : R := 100.

Definition SHADOW_COLORS : list (Z * string) :=
  [ (1%Z, "#E0E0E0"%string); (2%Z, "#C0C0C0"%string);
    (3%Z, "#A0A0A0"%string); (4%Z, "#808080"%string);
    (5%Z, "#606060"%string); (6%Z, "#404040"%string);
    (7%Z, "#303030"%string); (8%Z, "#202020"%string);
    (9%Z, "#101010"%string); (10%Z, "#000000"%string) ].

Definition time_to_angle (hour minute : Z) : R :=
  let h := (hour mod 12)%Z in
  IZR h * 30 + IZR minute * (5 / 10).

Definition calculate_full_bubble_path_from_angle
    (angle_degrees offset_x offset_y tail_length : R) : list PathSegment :=
  let ANGLE_RAD := radians angle_degrees in
  let TIP_EXTENSION := tail_length in
  let OFFSET_RAD := radians 5 in
  let CURVE_BEND_ANGLE := radians 2 in
  let CURVE_BEND_RADIUS_RATIO := 6 / 10 in
  let P1_X := (CENTER_X + offset_x) + RX * sin (ANGLE_RAD - OFFSET_RAD) in
  let P1_Y := (CENTER_Y + offset_y) - RY * cos (ANGLE_RAD - OFFSET_RAD) in
  let P2_X := (CENTER_X + offset_x) + RX * sin (ANGLE_RAD + OFFSET_RAD) in
  let P2_Y := (CENTER_Y + offset_y) - RY * cos (ANGLE_RAD + OFFSET_RAD) in
  let R_Tip := RX + TIP_EXTENSION in
  let P_Tip_X := (CENTER_X + offset_x) + R_Tip * sin ANGLE_RAD in
  let P_Tip_Y := (CENTER_Y + offset_y) - R_Tip * cos ANGLE_RAD in
  let R_C1 := RX + TIP_EXTENSION * CURVE_BEND_RADIUS_RATIO in
  let Angle_C1 := ANGLE_RAD + CURVE_BEND_ANGLE in
  let C1_X := (CENTER_X + offset_x) + R_C1 * sin Angle_C1 in
  let C1_Y := (CENTER_Y + offset_y) - R_C1 * cos Angle_C1 in
  let R_C2 := RX + TIP_EXTENSION * CURVE_BEND_RADIUS_RATIO in
  let Angle_C2 := ANGLE_RAD - CURVE_BEND_ANGLE in
  let C2_X := (CENTER_X + offset_x) + R_C2 * sin Angle_C2 in
  let C2_Y := (CENTER_Y + offset_y) - R_C2 * cos Angle_C2 in
  [ MoveTo (P1_X, P1_Y);
    ArcTo RX RY 0 true false (P2_X, P2_Y);
    QuadTo (C1_X, C1_Y) (P_Tip_X, P_Tip_Y);
    QuadTo (C2_X, C2_Y) (P1_X, P1_Y) ].

Definition create_custom_bubble (angle_degrees : R) (hour minute : Z)
    (shadow_size : R) (shade_level : Z) (tail_length : R)
    (bubble_text : string) : World :=
  let SHADOW_OFFSET_X := shadow_size in
  let SHADOW_OFFSET_Y := shadow_size in
  let SHADOW_COLOR := colors_get SHADOW_COLORS shade_level "#000000" in
  let main_bubble_path :=
    calculate_full_bubble_path_from_angle angle_degrees 0 0 tail_length in
  let shadow_path :=
    calculate_full_bubble_path_from_angle angle_degrees SHADOW_OFFSET_X
      SHADOW_OFFSET_Y tail_length in
  let dwg := new_drawing in
  let dwg :=
    dwg_add (Path shadow_path
               (mkStyle SHADOW_COLOR (Some "none"%string) (Some 0) false)) dwg in
  let dwg :=
    dwg_add (Path main_bubble_path
               (mkStyle "#FFFFFF" (Some "black"%string) (Some 4) true)) dwg in
  let dwg := dwg_add (Text bubble_text (CENTER_X, CENTER_Y + 10)) dwg in
  let dwg := dwg_save FILENAME dwg in
  print ("Successfully generated " ++ FILENAME ++ " with text: '" ++ bubble_text
           ++ "' and angle corresponding to " ++ fmt_02d hour ++ ":"
           ++ fmt_02d minute ++ ".")%string dwg.

End SpeechBobs.

(** * Vocabulary of the properties *)

Import MakeComicPage.


(** The normal before scaling, as the [if direction == 'right'] chooses it. *)
Definition normal_of (p1 p2 : Point) (direction : string) : Point :=
  let V_x := fst p2 - fst p1 in
  let V_y := snd p2 - snd p1 in
  if String.eqb direction "right" then (V_y, - V_x) else (- V_y, V_x).

(** ** Vocabulary for the split panels *)




(** [draw_split_panels] returns the right edge and adds exactly two
    polygons, left then right, which satisfy [P]. *)
Definition draws_pair (x y w h g : R) (params : dict) (dwg : World)
    (stroke fill ty : string) (P : list Point -> list Point -> Prop) : Prop :=
  exists p1 p2,
    draw_split_panels x y w h g params dwg stroke fill ty
    = Ok (x_end_p2 x w g,
          dwg_add (Polygon p2 (panel_style stroke fill))
            (dwg_add (Polygon p1 (panel_style stroke fill)) dwg))
    /\ P p1 p2.


(** ** Vocabulary for the thought-bubble tail *)

Import ThoughtBubble.

Definition circle_center (b : R * R * R) : Point := fst b.
Definition circle_radius (b : R * R * R) : R := snd b.

(** The centre of the bubble body once the offset is applied. *)
Definition bubble_center (offset_x offset_y : R) : Point :=
  (CENTER_X + offset_x, CENTER_Y + offset_y).

(** Euclidean distance between two points. *)
Definition dist (p q : Point) : R := norm (fst q - fst p, snd q - snd p).

(** The point at signed distance [d] from [c] in the clock direction
    [(sin a, - cos a)]. *)
Definition along (c : Point) (a d : R) : Point :=
  (fst c + d * sin a, snd c - d * cos a).

(** Distance of circle [i] from the centre. *)
Definition tail_distance (tail_length : R) (i : nat) : R :=
  CLOUD_RADIUS + tail_length / 3 + INR i * (tail_length / 3).

(** ** Vocabulary for the bubble paths *)

(** [p] lies on the axis-parallel ellipse of centre [c] and radii [rx], [ry]. *)
Definition on_ellipse (c : Point) (rx ry : R) (p : Point) : Prop :=
  ((fst p - fst c) / rx) ^ 2 + ((snd p - snd c) / ry) ^ 2 = 1.

(** Translating a path moves the points of its commands and leaves radii
    and flags alone; translating a tail circle moves its centre. *)
Definition translate_segment (d : Point) (seg : PathSegment) : PathSegment :=
  match seg with
  | MoveTo p => MoveTo (translate d p)
  | ArcTo rx ry rot la sw p => ArcTo rx ry rot la sw (translate d p)
  | QuadTo c p => QuadTo (translate d c) (translate d p)
  end.

Definition translate_path (d : Point) (path : list PathSegment)
    : list PathSegment :=
  map (translate_segment d) path.

Definition translate_circle (d : Point) (b : R * R * R) : R * R * R :=
  (translate d (fst b), snd b).

(** ** Further vocabulary *)


(** The inner boundary of the left polygon, top to bottom, and the one of
    the right polygon, also read top to bottom. *)
Definition inner_boundary_left (p1 : list Point) : list Point :=
  removelast (tl p1).
Definition inner_boundary_right (p2 : list Point) : list Point :=
  rev (skipn 3 p2).

Definition shift_right (g : R) (p : Point) : Point := (fst p + g, snd p).



(** ** Vocabulary for the page grid *)

(** The integers [c], [c + 1], ..., [c + k - 1]. *)
Fixpoint zseq (c : Z) (k : nat) : list Z :=
  match k with
  | O => []
  | S k' => c :: zseq (c + 1) k'
  end.

(** Width of a panel in a row of [n] columns and height of a row on a page
    of [m] rows, as [make_comic_page] computes them. *)
Definition standard_width (width margin gutter : R) (n : Z) : R :=
  (width - 2 * margin - (IZR n - 1) * gutter) / IZR n.
Definition row_height (height margin gutter : R) (m : Z) : R :=
  (height - 2 * margin - (IZR m - 1) * gutter) / IZR m.

(** Left edge of column [k] and top edge of row [r] of the regular grid. *)
Definition panel_x (margin gutter spw : R) (k : Z) : R :=
  margin + IZR k * (spw + gutter).
Definition row_y (margin gutter ph : R) (r : Z) : R :=
  margin + IZR r * (ph + gutter).

Definition grid_row (margin gutter spw ph y : R) (st : Style) (n : Z)
    : list Shape :=
  map (fun k => Rect (panel_x margin gutter spw k, y) (spw, ph) st)
      (zseq 0 (Z.to_nat n)).

Fixpoint grid_rows (width margin gutter ph : R) (st : Style)
    (rows : list Z) (r : Z) : list Shape :=
  match rows with
  | [] => []
  | n :: rows' =>
      grid_row margin gutter (standard_width width margin gutter n) ph
        (row_y margin gutter ph r) st n
      ++ grid_rows width margin gutter ph st rows' (r + 1)
  end.

(** Number of panels asked for: a negative count asks for none. *)
Definition panel_count (rows : list Z) : nat := list_sum (map Z.to_nat rows).

Definition known_style (ty : string) : Prop :=
  ty = "straight"%string \/ ty = "arrow"%string \/ ty = "lightning"%string.




(** A split coordinate that the column walk can act on: an existing row
    and a column that has a right neighbour in that row. *)
Definition split_reachable (rows : list Z) (rc : Z * Z) : bool :=
  (0 <=? fst rc)%Z && (fst rc <? Z.of_nat (List.length rows))%Z
  && (0 <=? snd rc)%Z
  && (snd rc + 1 <? nth (Z.to_nat (fst rc)) rows 0%Z)%Z.

Definition is_rect (s : Shape) : Prop :=
  match s with Rect _ _ _ => True | _ => False end.

(** The point a path command moves to. *)
Definition segment_end (seg : PathSegment) : Point :=
  match seg with
  | MoveTo p => p
  | ArcTo _ _ _ _ _ p => p
  | QuadTo _ p => p
  end.

(** [p] lies in the axis-parallel square of half side [d] around [c]. *)
Definition within_square (c : Point) (d : R) (p : Point) : Prop :=
  Rabs (fst p - fst c) <= d /\ Rabs (snd p - snd c) <= d.


(** * Lemmas and theorems *)

Lemma py_div_nonzero (a b : R) : b <> 0 -> py_div a b = Ok (a / b).
Proof.
  intro Hb. unfold py_div. destruct (Req_dec_T b 0) as [E | _]; [contradiction | reflexivity].
Qed.

Lemma py_div_zero (a : R) : py_div a 0 = Raise ZeroDivisionError.
Proof.
  unfold py_div. destruct (Req_dec_T 0 0) as [_ | N]; [reflexivity | now elim N].
Qed.

Lemma gnsv_eq (p1 p2 : Point) (m : R) (d : string) :
  get_normal_shift_vector p1 p2 m d =
    let N := normal_of p1 p2 d in
    if Req_dec_T (norm N) 0 then Ok (0, 0)
    else
      U_x <- py_div (fst N) (norm N) ;;
      U_y <- py_div (snd N) (norm N) ;;
      Ok (U_x * m, U_y * m).
Proof. reflexivity. Qed.

Lemma gnsv_degenerate (p1 p2 : Point) (m : R) (d : string) :
  norm (normal_of p1 p2 d) = 0 ->
  get_normal_shift_vector p1 p2 m d = Ok (0, 0).
Proof.
  intro H. rewrite gnsv_eq. cbv zeta.
  destruct (Req_dec_T (norm (normal_of p1 p2 d)) 0); [reflexivity | contradiction].
Qed.

Lemma gnsv_regular (p1 p2 : Point) (m : R) (d : string) :
  norm (normal_of p1 p2 d) <> 0 ->
  get_normal_shift_vector p1 p2 m d =
    Ok (fst (normal_of p1 p2 d) / norm (normal_of p1 p2 d) * m,
        snd (normal_of p1 p2 d) / norm (normal_of p1 p2 d) * m).
Proof.
  intro H. rewrite gnsv_eq. cbv zeta.
  destruct (Req_dec_T (norm (normal_of p1 p2 d)) 0) as [E | _]; [contradiction |].
  rewrite !py_div_nonzero by assumption. reflexivity.
Qed.

Lemma norm_normal_of (p1 p2 : Point) (d : string) :
  norm (normal_of p1 p2 d) =
    sqrt ((fst p2 - fst p1) ^ 2 + (snd p2 - snd p1) ^ 2).
Proof.
  unfold norm, normal_of. destruct (String.eqb d "right"); cbn [fst snd]; f_equal; ring.
Qed.




Lemma det_is_cross (p1 p2 p3 p4 : Point) :
  (snd p2 - snd p1) * (fst p3 - fst p4) - (snd p4 - snd p3) * (fst p1 - fst p2)
  = cross p1 p2 p3 p4.
Proof. unfold cross. ring. Qed.

Lemma gli_eq (p1 p2 p3 p4 : Point) :
  get_line_intersection p1 p2 p3 p4 =
    let a1 := snd p2 - snd p1 in
    let b1 := fst p1 - fst p2 in
    let c1 := a1 * fst p1 + b1 * snd p1 in
    let a2 := snd p4 - snd p3 in
    let b2 := fst p3 - fst p4 in
    let c2 := a2 * fst p3 + b2 * snd p3 in
    if Req_dec_T (cross p1 p2 p3 p4) 0 then Ok None
    else Ok (Some ((b2 * c1 - b1 * c2) / cross p1 p2 p3 p4,
                   (a1 * c2 - a2 * c1) / cross p1 p2 p3 p4)).
Proof.
  unfold get_line_intersection, line_coeffs. cbv zeta.
  rewrite det_is_cross.
  destruct (Req_dec_T (cross p1 p2 p3 p4) 0) as [E | N]; [reflexivity |].
  rewrite !py_div_nonzero by exact N. reflexivity.
Qed.

Lemma gli_parallel (p1 p2 p3 p4 : Point) :
  cross p1 p2 p3 p4 = 0 -> get_line_intersection p1 p2 p3 p4 = Ok None.
Proof.
  intro H. rewrite gli_eq. cbv zeta.
  destruct (Req_dec_T (cross p1 p2 p3 p4) 0); [reflexivity | contradiction].
Qed.






Lemma gnsv_total (p1 p2 : Point) (m : R) (d : string) :
  exists s, get_normal_shift_vector p1 p2 m d = Ok s.
Proof.
  destruct (Req_dec_T (norm (normal_of p1 p2 d)) 0) as [E | N].
  - rewrite (gnsv_degenerate _ _ m _ E). eauto.
  - rewrite (gnsv_regular _ _ m _ N). eauto.
Qed.

Lemma FLOAT_MAX_pos : 0 < FLOAT_MAX.
Proof.
  unfold FLOAT_MAX. apply Rmult_lt_0_compat; [| apply pow_lt; lra].
  assert (H : 2 <= 2 ^ 53).
  { change (2 ^ 53) with (2 * 2 ^ 52).
    assert (1 <= 2 ^ 52) by (apply pow_R1_Rle; lra). lra. }
  lra.
Qed.

Lemma py_sq_in_range (x : R) : x ^ 2 <= FLOAT_MAX -> py_sq x = Ok (x ^ 2).
Proof.
  intro H. unfold py_sq. destruct (Rlt_dec FLOAT_MAX (x ^ 2)); [lra | reflexivity].
Qed.

Lemma py_sq_overflow (x : R) : FLOAT_MAX < x ^ 2 -> py_sq x = Raise OverflowError.
Proof.
  intro H. unfold py_sq. destruct (Rlt_dec FLOAT_MAX (x ^ 2)); [reflexivity | lra].
Qed.

Lemma gnsv_ranged_eq (p1 p2 : Point) (m : R) (d : string) :
  get_normal_shift_vector_ranged p1 p2 m d =
    let N := normal_of p1 p2 d in
    N_x_sq <- py_sq (fst N) ;;
    N_y_sq <- py_sq (snd N) ;;
    if Req_dec_T (sqrt (N_x_sq + N_y_sq)) 0 then Ok (0, 0)
    else
      U_x <- py_div (fst N) (sqrt (N_x_sq + N_y_sq)) ;;
      U_y <- py_div (snd N) (sqrt (N_x_sq + N_y_sq)) ;;
      Ok (U_x * m, U_y * m).
Proof. reflexivity. Qed.

(** Inside the float range the two versions agree. *)
Lemma gnsv_ranged_in_range (p1 p2 : Point) (m : R) (d : string) :
  fst (normal_of p1 p2 d) ^ 2 <= FLOAT_MAX ->
  snd (normal_of p1 p2 d) ^ 2 <= FLOAT_MAX ->
  get_normal_shift_vector_ranged p1 p2 m d = get_normal_shift_vector p1 p2 m d.
Proof.
  intros Hx Hy. rewrite gnsv_ranged_eq, gnsv_eq. cbv zeta.
  rewrite (py_sq_in_range _ Hx). cbn [bind].
  rewrite (py_sq_in_range _ Hy). cbn [bind]. reflexivity.
Qed.

(** Beyond it the squaring raises. *)
Lemma gnsv_ranged_overflow (p1 p2 : Point) (m : R) (d : string) :
  FLOAT_MAX < fst (normal_of p1 p2 d) ^ 2
  \/ FLOAT_MAX < snd (normal_of p1 p2 d) ^ 2 ->
  get_normal_shift_vector_ranged p1 p2 m d = Raise OverflowError.
Proof.
  intro H. rewrite gnsv_ranged_eq. cbv zeta.
  destruct (Rlt_dec FLOAT_MAX (fst (normal_of p1 p2 d) ^ 2)) as [Hx | Hx].
  - rewrite (py_sq_overflow _ Hx). reflexivity.
  - rewrite py_sq_in_range by lra. cbn [bind].
    destruct H as [H | H]; [lra |].
    rewrite (py_sq_overflow _ H). reflexivity.
Qed.

Lemma gnsv_ranged_cases (p1 p2 : Point) (m : R) (d : string) :
  (exists s, get_normal_shift_vector_ranged p1 p2 m d = Ok s)
  \/ get_normal_shift_vector_ranged p1 p2 m d = Raise OverflowError.
Proof.
  destruct (Rlt_dec FLOAT_MAX (fst (normal_of p1 p2 d) ^ 2)) as [Hx | Hx].
  { right. apply gnsv_ranged_overflow. now left. }
  destruct (Rlt_dec FLOAT_MAX (snd (normal_of p1 p2 d) ^ 2)) as [Hy | Hy].
  { right. apply gnsv_ranged_overflow. now right. }
  left. rewrite gnsv_ranged_in_range by lra. apply gnsv_total.
Qed.

(** C8 (amended).  On a degenerate segment [(p, p)] the shift is the zero
    vector whatever the side and the magnitude, rather than a failure.
    The division by the magnitude of the normal is guarded: on no input is
    [ZeroDivisionError] raised.  The function either returns a vector or
    raises the [OverflowError] of the squaring. *)
Theorem normal_shift_degenerate_guarded :
  (forall (p : Point) (m : R) (direction : string),
     get_normal_shift_vector_ranged p p m direction = Ok (0, 0))
  /\ (forall (p1 p2 : Point) (m : R) (direction : string),
        get_normal_shift_vector_ranged p1 p2 m direction
        <> Raise ZeroDivisionError)
  /\ (forall (p1 p2 : Point) (m : R) (direction : string),
        (exists s, get_normal_shift_vector_ranged p1 p2 m direction = Ok s)
        \/ get_normal_shift_vector_ranged p1 p2 m direction
           = Raise OverflowError).
Proof.
  split; [| split].
  - intros p m d.
    assert (HN : normal_of p p d = (fst (normal_of p p d), snd (normal_of p p d)))
      by now destruct (normal_of p p d).
    assert (Hx : fst (normal_of p p d) = 0)
      by (unfold normal_of; destruct (String.eqb d "right"); cbn [fst]; ring).
    assert (Hy : snd (normal_of p p d) = 0)
      by (unfold normal_of; destruct (String.eqb d "right"); cbn [snd]; ring).
    pose proof FLOAT_MAX_pos as HF.
    rewrite gnsv_ranged_in_range by (rewrite ?Hx, ?Hy; lra).
    apply gnsv_degenerate. rewrite norm_normal_of.
    replace ((fst p - fst p) ^ 2 + (snd p - snd p) ^ 2) with 0 by ring.
    apply sqrt_0.
  - intros p1 p2 m d.
    destruct (gnsv_ranged_cases p1 p2 m d) as [[s Hs] | Ho];
      [rewrite Hs | rewrite Ho]; discriminate.
  - intros p1 p2 m d. apply gnsv_ranged_cases.
Qed.

(** C8, as stated, fails: the function is not total.  On the segment
    from [(0, 0)] to [(1e200, 0)] the normal is [(0, -1e200)] and the
    square of its second component, [1e400], is beyond the float range:
    the call raises [OverflowError] instead of returning a vector. *)
Lemma normal_shift_overflow :
  get_normal_shift_vector_ranged (0, 0) (10 ^ 200, 0) 1 "right"
  = Raise OverflowError.
Proof.
  apply gnsv_ranged_overflow. right.
  unfold normal_of. cbn [String.eqb Ascii.eqb Bool.eqb fst snd].
  replace ((- (10 ^ 200 - 0)) ^ 2) with (10 ^ 400)
    by (rewrite Rminus_0_r, <- Rsqr_pow2, <- Rsqr_neg, Rsqr_pow2, <- pow_mult;
        reflexivity).
  unfold FLOAT_MAX.
  change 2 with (IZR 2). change 10 with (IZR 10). change 1 with (IZR 1).
  rewrite !pow_IZR, <- minus_IZR, <- mult_IZR.
  apply IZR_lt. vm_compute. reflexivity.
Qed.

(** ** The thought-bubble tail *)

Lemma tail_unfold (a ox oy t : R) :
  calculate_thought_bubble_tail a ox oy t =
    [ tail_bubble a ox oy t 0; tail_bubble a ox oy t 1; tail_bubble a ox oy t 2 ].
Proof. reflexivity. Qed.

Lemma tail_bubble_radius (a ox oy t : R) (i : nat) :
  circle_radius (tail_bubble a ox oy t i) = 5 + (2 - INR i) * 3.
Proof.
  unfold circle_radius, tail_bubble, NUM_CIRCLES. cbn [snd]. simpl INR. ring.
Qed.

Lemma tail_bubble_center (a ox oy t : R) (i : nat) :
  circle_center (tail_bubble a ox oy t i)
  = along (bubble_center ox oy) (radians a) (tail_distance t i).
Proof.
  unfold circle_center, tail_bubble, along, bubble_center, tail_distance, NUM_CIRCLES.
  cbn [fst snd]. simpl (INR 3). f_equal; field.
Qed.

Lemma dist_along (c : Point) (a d : R) : 0 <= d -> dist c (along c a d) = d.
Proof.
  intro Hd. unfold dist, along, norm. cbn [fst snd].
  replace ((fst c + d * sin a - fst c) ^ 2 + (snd c - d * cos a - snd c) ^ 2)
    with (d ^ 2 * ((sin a)² + (cos a)²)) by (unfold Rsqr; ring).
  rewrite sin2_cos2, Rmult_1_r. apply sqrt_pow2. exact Hd.
Qed.

Lemma tail_distance_nonneg (t : R) (i : nat) : 0 <= t -> 0 <= tail_distance t i.
Proof.
  intro Ht. unfold tail_distance, CLOUD_RADIUS.
  pose proof (pos_INR i) as Hi.
  assert (0 <= INR i * (t / 3)) by (apply Rmult_le_pos; lra).
  lra.
Qed.

(** C2 (code defect).  The comments of [calculate_thought_bubble_tail]
    say that index 0 is the smallest circle and that the radii are 5, 8, 11
    in index order, but the expression [5 + (NUM_CIRCLES - 1 - i) * 3]
    counts the other way.  At angle 0, no offset and tail length 15 the
    function returns three circles of which the one at index 0 has radius
    11: it is not the smallest, its radius exceeds those of the circles at
    indices 1 and 2. *)
Lemma thought_tail_index0_not_smallest :
  exists c0 c1 c2,
    calculate_thought_bubble_tail 0 0 0 15 = [c0; c1; c2]
    /\ circle_radius c0 = 11
    /\ circle_radius c1 = 8
    /\ circle_radius c2 = 5
    /\ ~ (circle_radius c0 <= circle_radius c1
          /\ circle_radius c0 <= circle_radius c2).
Proof.
  rewrite tail_unfold. do 3 eexists. split; [reflexivity |].
  rewrite !tail_bubble_radius. simpl INR.
  repeat (split; [lra |]). intros [H _]; lra.
Qed.

(** C5 (amended).  For a non-negative tail length the tail has exactly
    three circles; circle [i] is centred at distance
    [CLOUD_RADIUS + tail_length / 3 + i * (tail_length / 3)] from the bubble
    centre in the direction [(sin angle, - cos angle)]; these distances
    never decrease with the index, and they increase strictly when the
    tail length is positive. *)
Theorem thought_tail_distances (a ox oy t : R) :
  0 <= t ->
  exists c0 c1 c2,
    calculate_thought_bubble_tail a ox oy t = [c0; c1; c2]
    /\ circle_center c0 = along (bubble_center ox oy) (radians a) (tail_distance t 0)
    /\ circle_center c1 = along (bubble_center ox oy) (radians a) (tail_distance t 1)
    /\ circle_center c2 = along (bubble_center ox oy) (radians a) (tail_distance t 2)
    /\ dist (bubble_center ox oy) (circle_center c0) = tail_distance t 0
    /\ dist (bubble_center ox oy) (circle_center c1) = tail_distance t 1
    /\ dist (bubble_center ox oy) (circle_center c2) = tail_distance t 2
    /\ tail_distance t 0 <= tail_distance t 1 <= tail_distance t 2
    /\ (0 < t -> tail_distance t 0 < tail_distance t 1 < tail_distance t 2).
Proof.
  intro Ht. rewrite tail_unfold. do 3 eexists. split; [reflexivity |].
  rewrite !tail_bubble_center.
  rewrite !dist_along by (apply tail_distance_nonneg; exact Ht).
  unfold tail_distance. simpl INR.
  repeat split; try reflexivity; lra.
Qed.

Lemma thought_tail_distances_witness :
  0 <= 15
  /\ exists c0 c1 c2,
       calculate_thought_bubble_tail 90 0 0 15 = [c0; c1; c2]
       /\ circle_center c0 = along (bubble_center 0 0) (radians 90) (tail_distance 15 0)
       /\ circle_center c1 = along (bubble_center 0 0) (radians 90) (tail_distance 15 1)
       /\ circle_center c2 = along (bubble_center 0 0) (radians 90) (tail_distance 15 2)
       /\ dist (bubble_center 0 0) (circle_center c0) = tail_distance 15 0
       /\ dist (bubble_center 0 0) (circle_center c1) = tail_distance 15 1
       /\ dist (bubble_center 0 0) (circle_center c2) = tail_distance 15 2
       /\ tail_distance 15 0 <= tail_distance 15 1 <= tail_distance 15 2
       /\ (0 < 15 -> tail_distance 15 0 < tail_distance 15 1 < tail_distance 15 2).
Proof.
  assert (H : 0 <= 15) by lra.
  split; [exact H | exact (thought_tail_distances 90 0 0 15 H)].
Defined.

(** C5, as stated, fails at tail length 0, which is non-negative: the
    three circles are then all centred at distance 130 from the centre,
    so the distance does not increase from index 0 to index 1. *)
Lemma thought_tail_zero_length_not_increasing :
  0 <= 0
  /\ exists c0 c1 c2,
       calculate_thought_bubble_tail 0 0 0 0 = [c0; c1; c2]
       /\ dist (bubble_center 0 0) (circle_center c0) = 130
       /\ dist (bubble_center 0 0) (circle_center c1) = 130
       /\ ~ (dist (bubble_center 0 0) (circle_center c0)
             < dist (bubble_center 0 0) (circle_center c1)).
Proof.
  split; [lra |].
  rewrite tail_unfold. do 3 eexists. split; [reflexivity |].
  rewrite !tail_bubble_center.
  rewrite !dist_along by (apply tail_distance_nonneg; lra).
  unfold tail_distance, CLOUD_RADIUS. simpl INR.
  repeat split; try lra.
Qed.

(** ** The bubble paths *)

Lemma on_ellipse_param (cx cy rx ry a : R) :
  rx <> 0 -> ry <> 0 ->
  on_ellipse (cx, cy) rx ry (cx + rx * sin a, cy - ry * cos a).
Proof.
  intros Hx Hy. unfold on_ellipse; cbn [fst snd].
  replace (((cx + rx * sin a - cx) / rx) ^ 2 + ((cy - ry * cos a - cy) / ry) ^ 2)
    with ((sin a)² + (cos a)²) by (unfold Rsqr; field; split; assumption).
  apply sin2_cos2.
Qed.

(** C9.  Whatever the angle, the offset and the tail length, the two base
    points [P1] and [P2] of the speech-bubble path (the target of the
    initial move and the end of the large arc) lie on the ellipse of radii
    150 and 100 around the offset centre; this holds for the path of
    [thought_bubble.py] and for the one of [speechbobs.py]. *)
Theorem speech_base_points_on_ellipse (a ox oy t : R) :
  (exists P1 P2 q1 q2,
      calculate_speech_bubble_path a ox oy t
        = [MoveTo P1; ArcTo 150 100 0 true false P2; q1; q2]
      /\ on_ellipse (bubble_center ox oy) 150 100 P1
      /\ on_ellipse (bubble_center ox oy) 150 100 P2)
  /\ (exists P1 P2 q1 q2,
         SpeechBobs.calculate_full_bubble_path_from_angle a ox oy t
           = [MoveTo P1; ArcTo 150 100 0 true false P2; q1; q2]
         /\ on_ellipse (SpeechBobs.CENTER_X + ox, SpeechBobs.CENTER_Y + oy) 150 100 P1
         /\ on_ellipse (SpeechBobs.CENTER_X + ox, SpeechBobs.CENTER_Y + oy) 150 100 P2).
Proof.
  split; do 4 eexists; (split; [reflexivity |]);
    split; apply on_ellipse_param;
    unfold RX, RY, SpeechBobs.RX, SpeechBobs.RY; lra.
Qed.

Ltac path_eq :=
  repeat lazymatch goal with
    | |- _ :: _ = _ :: _ => f_equal
    | |- MoveTo _ = MoveTo _ => f_equal
    | |- ArcTo _ _ _ _ _ _ = ArcTo _ _ _ _ _ _ => f_equal
    | |- QuadTo _ _ = QuadTo _ _ => f_equal
    | |- (_, _) = (_, _) => apply f_equal2
    end.

Lemma speech_path_translated (a ox oy t : R) :
  calculate_speech_bubble_path a ox oy t
  = translate_path (ox, oy) (calculate_speech_bubble_path a 0 0 t).
Proof.
  unfold calculate_speech_bubble_path, translate_path.
  cbn [map translate_segment]. unfold translate; cbn [fst snd].
  path_eq; ring.
Qed.

Lemma full_bubble_path_translated (a ox oy t : R) :
  SpeechBobs.calculate_full_bubble_path_from_angle a ox oy t
  = translate_path (ox, oy) (SpeechBobs.calculate_full_bubble_path_from_angle a 0 0 t).
Proof.
  unfold SpeechBobs.calculate_full_bubble_path_from_angle, translate_path.
  cbn [map translate_segment]. unfold translate; cbn [fst snd].
  path_eq; ring.
Qed.

Lemma cloud_path_translated (ox oy : R) :
  calculate_cloud_path ox oy = translate_path (ox, oy) (calculate_cloud_path 0 0).
Proof.
  unfold calculate_cloud_path, cloud_points, translate_path, cloud_arc.
  cbn [map app translate_segment]. unfold translate; cbn [fst snd].
  path_eq; ring.
Qed.

Lemma tail_bubble_translated (a ox oy t : R) (i : nat) :
  tail_bubble a ox oy t i = translate_circle (ox, oy) (tail_bubble a 0 0 t i).
Proof.
  unfold tail_bubble, translate_circle, translate; cbn [fst snd].
  path_eq; ring.
Qed.

Lemma tail_translated (a ox oy t : R) :
  calculate_thought_bubble_tail a ox oy t
  = map (translate_circle (ox, oy)) (calculate_thought_bubble_tail a 0 0 t).
Proof.
  rewrite !tail_unfold. cbn [map]. now rewrite !(tail_bubble_translated a ox oy).
Qed.

(** C10.  An offset only translates: the speech-bubble path (of either
    module), the cloud path and the tail circles computed with offset
    [(ox, oy)] are those computed with zero offset, moved by [(ox, oy)];
    the tail radii do not depend on the offset.  Hence in the drawings of
    [create_custom_bubble] every shadow shape is the main shape moved by
    [(shadow_size, shadow_size)]. *)
Theorem offset_is_translation
    (a ox oy t shadow_size : R) (hour minute shade_level : Z) (text : string) :
  calculate_speech_bubble_path a ox oy t
    = translate_path (ox, oy) (calculate_speech_bubble_path a 0 0 t)
  /\ SpeechBobs.calculate_full_bubble_path_from_angle a ox oy t
     = translate_path (ox, oy)
         (SpeechBobs.calculate_full_bubble_path_from_angle a 0 0 t)
  /\ calculate_cloud_path ox oy
     = translate_path (ox, oy) (calculate_cloud_path 0 0)
  /\ calculate_thought_bubble_tail a ox oy t
     = map (translate_circle (ox, oy)) (calculate_thought_bubble_tail a 0 0 t)
  /\ map circle_radius (calculate_thought_bubble_tail a ox oy t)
     = map circle_radius (calculate_thought_bubble_tail a 0 0 t)
  /\ (exists main shadow_st main_st,
        shapes (create_custom_bubble "SPEECH" a hour minute shadow_size
                  shade_level t text)
        = [ Path (translate_path (shadow_size, shadow_size) main) shadow_st;
            Path main main_st;
            bubble_text_shape text ])
  /\ (exists cloud tail shadow_st cloud_st tail_st,
        shapes (create_custom_bubble "THOUGHT" a hour minute shadow_size
                  shade_level t text)
        = [ Path (translate_path (shadow_size, shadow_size) cloud) shadow_st;
            Path cloud cloud_st ]
          ++ map (tail_circle shadow_st)
               (map (translate_circle (shadow_size, shadow_size)) tail)
          ++ map (tail_circle tail_st) tail
          ++ [ bubble_text_shape text ])
  /\ (exists main shadow_st main_st,
        shapes (SpeechBobs.create_custom_bubble a hour minute shadow_size
                  shade_level t text)
        = [ Path (translate_path (shadow_size, shadow_size) main) shadow_st;
            Path main main_st;
            Text text (SpeechBobs.CENTER_X, SpeechBobs.CENTER_Y + 10) ]).
Proof.
  split; [apply speech_path_translated |].
  split; [apply full_bubble_path_translated |].
  split; [apply cloud_path_translated |].
  split; [apply tail_translated |].
  split.
  { rewrite tail_translated, map_map. reflexivity. }
  split.
  { exists (calculate_speech_bubble_path a 0 0 t). do 2 eexists.
    rewrite <- speech_path_translated. reflexivity. }
  split.
  { exists (calculate_cloud_path 0 0), (calculate_thought_bubble_tail a 0 0 t).
    do 3 eexists.
    rewrite <- cloud_path_translated, <- tail_translated. reflexivity. }
  exists (SpeechBobs.calculate_full_bubble_path_from_angle a 0 0 t). do 2 eexists.
  rewrite <- full_bubble_path_translated. reflexivity.
Qed.

(** ** Split panels *)

Lemma x_end_p2_total_width (x w g : R) : x_end_p2 x w g = x + w.
Proof. unfold x_end_p2, x_start_p2, x_end_p1, P1_WIDTH. field. Qed.

Lemma split_points_unknown (x y w h g : R) (params : dict) (ty : string) :
  ty <> "straight"%string -> ty <> "arrow"%string -> ty <> "lightning"%string ->
  split_points x y w h g params ty = Ok None.
Proof.
  intros H1 H2 H3. unfold split_points.
  apply String.eqb_neq in H1, H2, H3. now rewrite H1, H2, H3.
Qed.

(** C7.  With a style tag that is none of [straight], [arrow] and
    [lightning], [draw_split_panels] returns normally: it prints the error
    line, leaves the shapes of the drawing untouched (no polygon is added)
    and returns the right edge [x_start_p1 + panel_width]. *)
Theorem draw_split_panels_unknown_style
    (x y w h g : R) (params : dict) (dwg : World) (stroke fill ty : string) :
  ty <> "straight"%string -> ty <> "arrow"%string -> ty <> "lightning"%string ->
  exists x_right dwg',
    draw_split_panels x y w h g params dwg stroke fill ty = Ok (x_right, dwg')
    /\ x_right = x + w
    /\ shapes dwg' = shapes dwg
    /\ stdout dwg' = stdout dwg ++ [unknown_split_message ty]
    /\ saved_as dwg' = saved_as dwg.
Proof.
  intros H1 H2 H3. unfold draw_split_panels.
  rewrite (split_points_unknown x y w h g params ty H1 H2 H3). cbn [bind].
  do 2 eexists. split; [reflexivity |].
  split; [apply x_end_p2_total_width |]. repeat split.
Qed.

Lemma draw_split_panels_unknown_style_witness :
  "zigzag"%string <> "straight"%string
  /\ "zigzag"%string <> "arrow"%string
  /\ "zigzag"%string <> "lightning"%string
  /\ exists x_right dwg',
       draw_split_panels 20 20 1880 340 10 [] new_drawing "#000000" "none" "zigzag"
         = Ok (x_right, dwg')
       /\ x_right = 20 + 1880
       /\ shapes dwg' = shapes new_drawing
       /\ stdout dwg' = stdout new_drawing ++ [unknown_split_message "zigzag"]
       /\ saved_as dwg' = saved_as new_drawing.
Proof.
  repeat (split; [discriminate |]).
  apply (draw_split_panels_unknown_style 20 20 1880 340 10 [] new_drawing
           "#000000" "none" "zigzag"); discriminate.
Defined.

(** ** Page layout *)

Ltac shape_eq :=
  repeat lazymatch goal with
    | |- ?l = ?l => reflexivity
    | |- _ :: _ = _ :: _ => apply f_equal2
    | |- Rect _ _ _ = Rect _ _ _ => f_equal
    | |- Polygon _ _ = Polygon _ _ => f_equal
    | |- (_, _) = (_, _) => apply f_equal2
    end.

(** C6.  On a 1920x1080 page with rows of 1, 2 and 3 panels, margin 20,
    gutter 10 and no split pair, [make_comic_page] returns normally and the
    drawing holds the background rectangle followed by exactly six panel
    rectangles.  All six have the height
    [(1080 - 2 * 20 - (3 - 1) * 10) / 3 = 340]; the panel of row 0 is 1880
    wide, the two panels of row 1 are 935 wide and the three panels of row
    2 are 620 wide. *)
Theorem layout_1_2_3
    (bg stroke fill ty filename : string) (params : dict) :
  exists dwg,
    make_comic_page 1920 1080 20 10 bg stroke fill [] ty params filename
      [1; 2; 3]%Z = Ok dwg
    /\ shapes dwg =
         [ Rect (0, 0) (1920, 1080) (mkStyle bg None None false);
           Rect (20, 20) (1880, 340) (panel_style stroke fill);
           Rect (20, 370) (935, 340) (panel_style stroke fill);
           Rect (965, 370) (935, 340) (panel_style stroke fill);
           Rect (20, 720) (620, 340) (panel_style stroke fill);
           Rect (650, 720) (620, 340) (panel_style stroke fill);
           Rect (1280, 720) (620, 340) (panel_style stroke fill) ]
    /\ 340 = (1080 - 2 * 20 - (3 - 1) * 10) / 3
    /\ saved_as dwg = Some filename.
Proof.
  unfold make_comic_page. cbn -[py_div].
  repeat (rewrite py_div_nonzero by lra; cbn -[py_div]).
  eexists. split; [reflexivity |].
  split; [| split; [lra | reflexivity]].
  cbn. unfold background_rect. shape_eq; lra.
Qed.

(** ** The two polygons of a split pair *)

Lemma intersection_or_total (p1 p2 p3 p4 fb : Point) :
  exists pt, intersection_or p1 p2 p3 p4 fb = Ok pt.
Proof.
  unfold intersection_or. rewrite gli_eq. cbv zeta.
  destruct (Req_dec_T (cross p1 p2 p3 p4) 0); cbn [bind]; eauto.
Qed.

Ltac run_lightning :=
  repeat match goal with
    | |- context [get_normal_shift_vector ?a ?b ?m ?d] =>
        let s := fresh "S" in
        let H := fresh "HS" in
        destruct (gnsv_total a b m d) as [s H]; rewrite H; clear H; cbn [bind]
    | |- context [intersection_or ?a ?b ?c ?d ?f] =>
        let q := fresh "Q" in
        let H := fresh "HQ" in
        destruct (intersection_or_total a b c d f) as [q H];
        rewrite H; clear H; cbn [bind]
    end.

Lemma lightning_points_shape (x y w h g : R) (params : dict) :
  exists I_top J K L_bot H_bot G F E_top,
    lightning_points x y w h g params
    = Ok ([ (x, y); I_top; J; K; L_bot; (x, y_bottom y h) ],
          [ (x_end_p2 x w g, y); (x_end_p2 x w g, y_bottom y h);
            (x_start_p2 x w g, y_bottom y h); H_bot; G; F; E_top ]).
Proof.
  unfold lightning_points. cbv zeta. run_lightning.
  do 8 eexists. reflexivity.
Qed.





(** Evaluation of the helpers at known values. *)






(** ** The layout loops always finish *)

Lemma draw_split_panels_total
    (x y w h g : R) (params : dict) (dwg : World) (stroke fill ty : string) :
  exists dwg', draw_split_panels x y w h g params dwg stroke fill ty
               = Ok (x_end_p2 x w g, dwg').
Proof.
  unfold draw_split_panels, split_points.
  destruct (String.eqb ty "straight").
  { cbn [bind]. destruct (straight_points x y w h g params). eauto. }
  destruct (String.eqb ty "arrow").
  { cbn [bind]. destruct (arrow_points x y w h g params). eauto. }
  destruct (String.eqb ty "lightning").
  - destruct (lightning_points_shape x y w h g params)
      as (I_top & J & K & L_bot & H_bot & G & F & E_top & Hpts).
    rewrite Hpts. cbn [bind]. eauto.
  - cbn [bind]. eauto.
Qed.

(** The fuel handed to [cols_loop] is never exhausted: [total_cols - c]
    iterations are enough, and the loop returns a drawing. *)
Lemma cols_loop_total
    (gutter : R) (stroke fill : string) (split_panels : list (Z * Z))
    (ty : string) (params : dict) (r total_cols : Z) (spw ph y : R) :
  forall (fuel : nat) (c : Z) (x : R) (dwg : World),
    (Z.to_nat (total_cols - c) <= fuel)%nat ->
    exists dwg',
      cols_loop gutter stroke fill split_panels ty params fuel r total_cols
        spw ph y c x dwg = Ok dwg'.
Proof.
  induction fuel as [| fuel IH]; intros c x dwg Hfuel.
  - cbn [cols_loop]. destruct (Z.ltb_spec c total_cols) as [Hlt | Hge]; [lia | eauto].
  - cbn [cols_loop]. destruct (Z.ltb_spec c total_cols) as [Hlt | Hge]; [| eauto].
    destruct (coord_in (r, c) split_panels && (c + 1 <? total_cols)%Z).
    + destruct (draw_split_panels_total x y (spw * 2 + gutter) ph gutter
                  params dwg stroke fill ty) as [dwg1 Hd].
      rewrite Hd. cbn [bind]. apply IH. lia.
    + apply IH. lia.
Qed.

(** [make_comic_page] returns a drawing whenever no row asks for zero
    panels; the only exception it can raise is the division by a zero
    panel count. *)
Lemma rows_loop_total
    (width margin gutter : R) (stroke fill : string)
    (split_panels : list (Z * Z)) (ty : string) (params : dict) :
  forall (rows : list Z) (r : Z) (ph y : R) (dwg : World),
    Forall (fun n => n <> 0%Z) rows ->
    exists dwg',
      rows_loop width margin gutter stroke fill split_panels ty params
        rows r ph y dwg = Ok dwg'.
Proof.
  induction rows as [| n rows IH]; intros r ph y dwg Hrows.
  - cbn [rows_loop]. eauto.
  - inversion Hrows as [| ? ? Hn Hrest]; subst.
    cbn [rows_loop].
    rewrite py_div_nonzero by (apply not_0_IZR; exact Hn). cbn [bind].
    destruct (cols_loop_total gutter stroke fill split_panels ty params r n
                ((width - 2 * margin - (IZR n - 1) * gutter) / IZR n) ph y
                (Z.to_nat n) 0%Z margin dwg) as [dwg1 Hd]; [lia |].
    rewrite Hd. cbn [bind]. apply IH. exact Hrest.
Qed.

Lemma make_comic_page_total
    (width height margin gutter : R) (bg stroke fill : string)
    (split_panels : list (Z * Z)) (ty : string) (params : dict)
    (filename : string) (row_config : list Z) :
  Forall (fun n => n <> 0%Z) row_config ->
  exists dwg,
    make_comic_page width height margin gutter bg stroke fill split_panels
      ty params filename row_config = Ok dwg.
Proof.
  intro Hrows. unfold make_comic_page.
  destruct (Z.eqb_spec (Z.of_nat (List.length row_config)) 0) as [E | N]; [eauto |].
  rewrite py_div_nonzero by (apply not_0_IZR; exact N). cbn [bind].
  destruct (rows_loop_total width margin gutter stroke fill split_panels ty
              params row_config 0%Z
              ((height - 2 * margin
                - (IZR (Z.of_nat (List.length row_config)) - 1) * gutter)
               / IZR (Z.of_nat (List.length row_config)))
              margin (dwg_add (background_rect width height bg) new_drawing)
              Hrows) as [dwg1 Hd].
  rewrite Hd. cbn [bind]. eauto.
Qed.

(** A row of zero panels is not skipped: the panel width is computed first,
    and its division raises. *)
Remark make_comic_page_zero_row
    (bg stroke fill ty filename : string) (params : dict) :
  make_comic_page 1920 1080 20 10 bg stroke fill [] ty params filename [0%Z]
  = Raise ZeroDivisionError.
Proof.
  unfold make_comic_page. cbn -[py_div].
  rewrite py_div_nonzero by lra. cbn -[py_div].
  rewrite py_div_zero. reflexivity.
Qed.

(** * Further properties of the geometry helpers *)


Lemma normal_of_reversed (p1 p2 : Point) :
  normal_of p2 p1 "right" = normal_of p1 p2 "left".
Proof. unfold normal_of. cbn. apply f_equal2; ring. Qed.

(** Walking the segment the other way exchanges the two sides: the right
    shift of [(p2, p1)] is the left shift of [(p1, p2)]. *)
Theorem normal_shift_reversed_segment (p1 p2 : Point) (m : R) :
  get_normal_shift_vector p2 p1 m "right" = get_normal_shift_vector p1 p2 m "left".
Proof.
  rewrite !gnsv_eq, normal_of_reversed. reflexivity.
Qed.

(** Only the string ['right'] selects the right side: every other
    direction string is treated as ['left']. *)
Theorem normal_shift_other_direction (p1 p2 : Point) (m : R) (d : string) :
  d <> "right"%string ->
  get_normal_shift_vector p1 p2 m d = get_normal_shift_vector p1 p2 m "left".
Proof.
  intro H. apply String.eqb_neq in H.
  rewrite !gnsv_eq. unfold normal_of. rewrite H. reflexivity.
Qed.

Lemma normal_shift_other_direction_witness :
  "up"%string <> "right"%string
  /\ get_normal_shift_vector (0, 0) (3, 4) 5 "up"
     = get_normal_shift_vector (0, 0) (3, 4) 5 "left".
Proof.
  assert (H : "up"%string <> "right"%string) by discriminate.
  split; [exact H | exact (normal_shift_other_direction (0, 0) (3, 4) 5 "up" H)].
Defined.










(** Two coincident points define no line, and a line does not intersect
    itself: both cases return [None]. *)
Theorem line_intersection_degenerate (p p1 p2 p3 p4 : Point) :
  get_line_intersection p p p3 p4 = Ok None
  /\ get_line_intersection p1 p2 p p = Ok None
  /\ get_line_intersection p1 p2 p1 p2 = Ok None.
Proof.
  repeat split; apply gli_parallel; unfold cross; ring.
Qed.

(** * Further properties of the split panels *)

(** For the styles [straight] and [arrow] the inner boundary of the right
    polygon is, vertex by vertex, the inner boundary of the left polygon
    moved right by the gutter: the gap is the gutter at every height. *)
Theorem straight_arrow_boundary_shifted
    (x y w h g : R) (params : dict) (dwg : World) (stroke fill : string) :
  draws_pair x y w h g params dwg stroke fill "straight"
    (fun p1 p2 =>
       List.length (inner_boundary_left p1) = 2%nat
       /\ inner_boundary_right p2 = map (shift_right g) (inner_boundary_left p1))
  /\ draws_pair x y w h g params dwg stroke fill "arrow"
       (fun p1 p2 =>
          List.length (inner_boundary_left p1) = 3%nat
          /\ inner_boundary_right p2 = map (shift_right g) (inner_boundary_left p1)).
Proof.
  split.
  - exists (fst (straight_points x y w h g params)),
           (snd (straight_points x y w h g params)).
    repeat split.
  - exists (fst (arrow_points x y w h g params)),
           (snd (arrow_points x y w h g params)).
    repeat split.
Qed.






(** * Further properties of the page layout *)

Lemma world_eta (w : World) : mkWorld (shapes w) (stdout w) (saved_as w) = w.
Proof. now destruct w. Qed.

Lemma cols_loop_grid
    (gutter : R) (stroke fill ty : string) (params : dict)
    (r n : Z) (spw ph y margin : R) :
  forall (fuel : nat) (c : Z) (x : R) (dwg : World),
    (Z.to_nat (n - c) <= fuel)%nat ->
    x = panel_x margin gutter spw c ->
    cols_loop gutter stroke fill [] ty params fuel r n spw ph y c x dwg
    = Ok (mkWorld
            (shapes dwg
             ++ map (fun k => Rect (panel_x margin gutter spw k, y) (spw, ph)
                                (panel_style stroke fill))
                  (zseq c (Z.to_nat (n - c))))
            (stdout dwg) (saved_as dwg)).
Proof.
  induction fuel as [| fuel IH]; intros c x dwg Hfuel Hx.
  - cbn [cols_loop]. destruct (Z.ltb_spec c n) as [Hlt | Hge]; [lia |].
    replace (Z.to_nat (n - c)) with 0%nat by lia.
    cbn [zseq map]. now rewrite app_nil_r, world_eta.
  - cbn [cols_loop]. destruct (Z.ltb_spec c n) as [Hlt | Hge].
    + cbn [coord_in existsb andb].
      rewrite (IH (c + 1)%Z) by
        (try lia; subst x; unfold panel_x; rewrite plus_IZR; ring).
      replace (Z.to_nat (n - c)) with (S (Z.to_nat (n - (c + 1)))) by lia.
      cbn [zseq map dwg_add shapes stdout saved_as].
      subst x. now rewrite <- app_assoc.
    + replace (Z.to_nat (n - c)) with 0%nat by lia.
      cbn [zseq map]. now rewrite app_nil_r, world_eta.
Qed.

Lemma rows_loop_grid
    (width margin gutter : R) (stroke fill ty : string) (params : dict) (ph : R) :
  forall (rows : list Z) (r : Z) (y : R) (dwg : World),
    Forall (fun n => n <> 0%Z) rows ->
    y = row_y margin gutter ph r ->
    rows_loop width margin gutter stroke fill [] ty params rows r ph y dwg
    = Ok (mkWorld
            (shapes dwg
             ++ grid_rows width margin gutter ph (panel_style stroke fill) rows r)
            (stdout dwg) (saved_as dwg)).
Proof.
  induction rows as [| n rows IH]; intros r y dwg Hrows Hy.
  - cbn [rows_loop grid_rows]. now rewrite app_nil_r, world_eta.
  - inversion Hrows as [| ? ? Hn Hrest]; subst.
    cbn [rows_loop grid_rows].
    rewrite py_div_nonzero by (apply not_0_IZR; exact Hn). cbn [bind].
    fold (standard_width width margin gutter n).
    rewrite (cols_loop_grid gutter stroke fill ty params r n
               (standard_width width margin gutter n) ph
               (row_y margin gutter ph r) margin (Z.to_nat n) 0%Z margin dwg)
      by (try lia; unfold panel_x; ring).
    cbn [bind].
    rewrite (IH (r + 1)%Z) by
      (try assumption; unfold row_y; rewrite plus_IZR; ring).
    cbn [shapes stdout saved_as]. unfold grid_row.
    rewrite Z.sub_0_r. now rewrite <- app_assoc.
Qed.

(** Without split pairs, and when no row asks for zero panels, the page is
    the background followed by the regular grid, row by row and left to
    right: the rectangle of row [r] and column [k] has its corner at
    [(margin + k * (w_row + gutter), margin + r * (h + gutter))] and the
    size [(w_row, h)], where [w_row] is the standard width of that row and
    [h] the common row height.  A row with a negative count adds nothing.
    The drawing is saved under [filename]. *)
Theorem make_comic_page_grid
    (width height margin gutter : R) (bg stroke fill ty filename : string)
    (params : dict) (rows : list Z) :
  Forall (fun n => n <> 0%Z) rows ->
  exists dwg,
    make_comic_page width height margin gutter bg stroke fill [] ty params
      filename rows = Ok dwg
    /\ shapes dwg
       = background_rect width height bg
         :: grid_rows width margin gutter
              (row_height height margin gutter (Z.of_nat (List.length rows)))
              (panel_style stroke fill) rows 0
    /\ saved_as dwg = Some filename.
Proof.
  intro Hrows. unfold make_comic_page.
  destruct (Z.eqb_spec (Z.of_nat (List.length rows)) 0) as [E | N].
  - destruct rows; [| discriminate E].
    eexists. split; [reflexivity |]. split; reflexivity.
  - rewrite py_div_nonzero by (apply not_0_IZR; exact N). cbn [bind].
    fold (row_height height margin gutter (Z.of_nat (List.length rows))).
    rewrite (rows_loop_grid width margin gutter stroke fill ty params _ rows
               0%Z margin _ Hrows) by (unfold row_y; ring).
    cbn [bind]. eexists. split; [reflexivity |]. split; reflexivity.
Qed.

Lemma make_comic_page_grid_witness :
  Forall (fun n => n <> 0%Z) [2; 1]%Z
  /\ exists dwg,
       make_comic_page 1920 1080 20 10 "#ffffff" "#000000" "none" [] "arrow" []
         "comic_page.svg" [2; 1]%Z = Ok dwg
       /\ shapes dwg
          = background_rect 1920 1080 "#ffffff"
            :: grid_rows 1920 20 10
                 (row_height 1080 20 10 (Z.of_nat (List.length [2; 1]%Z)))
                 (panel_style "#000000" "none") [2; 1]%Z 0
       /\ saved_as dwg = Some "comic_page.svg"%string.
Proof.
  assert (H : Forall (fun n => n <> 0%Z) [2; 1]%Z)
    by (repeat constructor; discriminate).
  split; [exact H |].
  exact (make_comic_page_grid 1920 1080 20 10 "#ffffff" "#000000" "none" "arrow"
           "comic_page.svg" [] [2; 1]%Z H).
Defined.







Lemma rows_loop_zero_row
    (width margin gutter : R) (stroke fill : string)
    (split_panels : list (Z * Z)) (ty : string) (params : dict) :
  forall (rows : list Z) (r : Z) (ph y : R) (dwg : World),
    In 0%Z rows ->
    rows_loop width margin gutter stroke fill split_panels ty params
      rows r ph y dwg = Raise ZeroDivisionError.
Proof.
  induction rows as [| n rows IH]; intros r ph y dwg Hin; [contradiction |].
  cbn [rows_loop]. destruct (Z.eq_dec n 0) as [-> | Hn].
  - rewrite py_div_zero. reflexivity.
  - rewrite py_div_nonzero by (apply not_0_IZR; exact Hn). cbn [bind].
    destruct Hin as [E | Hin]; [congruence |].
    destruct (cols_loop_total gutter stroke fill split_panels ty params r n
                ((width - 2 * margin - (IZR n - 1) * gutter) / IZR n) ph y
                (Z.to_nat n) 0%Z margin dwg) as [dwg1 Hd]; [lia |].
    rewrite Hd. cbn [bind]. apply IH. exact Hin.
Qed.

(** A row that asks for zero panels is never skipped.  The panel width of
    a row is computed before anything of that row is drawn, and for a count
    of zero the computation divides by zero: whatever the other arguments,
    [make_comic_page] does not return a drawing, so nothing is saved. *)
Theorem make_comic_page_zero_row_fails
    (width height margin gutter : R) (bg stroke fill : string)
    (split_panels : list (Z * Z)) (ty : string) (params : dict)
    (filename : string) (rows : list Z) :
  In 0%Z rows ->
  forall dwg,
    make_comic_page width height margin gutter bg stroke fill split_panels
      ty params filename rows <> Ok dwg.
Proof.
  intros Hin dwg. unfold make_comic_page.
  destruct (Z.eqb_spec (Z.of_nat (List.length rows)) 0) as [E | N].
  - destruct rows; [contradiction | discriminate E].
  - rewrite py_div_nonzero by (apply not_0_IZR; exact N). cbn [bind].
    rewrite rows_loop_zero_row by exact Hin. cbn [bind]. discriminate.
Qed.

Lemma make_comic_page_zero_row_fails_witness :
  In 0%Z [1; 0; 2]%Z
  /\ forall dwg,
       make_comic_page 1920 1080 20 10 "#ffffff" "#000000" "none" []
         "arrow" [] "comic_page.svg" [1; 0; 2]%Z <> Ok dwg.
Proof.
  assert (H : In 0%Z [1; 0; 2]%Z) by (right; left; reflexivity).
  split; [exact H |].
  exact (make_comic_page_zero_row_fails 1920 1080 20 10 "#ffffff" "#000000"
           "none" [] "arrow" [] "comic_page.svg" [1; 0; 2]%Z H).
Defined.










Lemma cols_loop_ext
    (gutter : R) (stroke fill : string) (sp1 sp2 : list (Z * Z))
    (ty : string) (params : dict) (r n : Z) (spw ph y : R) :
  forall (fuel : nat) (c : Z) (x : R) (dwg : World),
    (forall c', (c <= c')%Z -> (c' + 1 < n)%Z ->
                coord_in (r, c') sp1 = coord_in (r, c') sp2) ->
    cols_loop gutter stroke fill sp1 ty params fuel r n spw ph y c x dwg
    = cols_loop gutter stroke fill sp2 ty params fuel r n spw ph y c x dwg.
Proof.
  induction fuel as [| fuel IH]; intros c x dwg Hsp; [reflexivity |].
  cbn [cols_loop]. destruct (Z.ltb_spec c n) as [Hlt | Hge]; [| reflexivity].
  assert (Hsame : coord_in (r, c) sp1 && (c + 1 <? n)%Z
                  = coord_in (r, c) sp2 && (c + 1 <? n)%Z).
  { destruct (Z.ltb_spec (c + 1) n) as [H1 | H1].
    - rewrite (Hsp c) by lia. reflexivity.
    - now rewrite !andb_false_r. }
  rewrite Hsame.
  destruct (coord_in (r, c) sp2 && (c + 1 <? n)%Z).
  - destruct (draw_split_panels x y (spw * 2 + gutter) ph gutter params dwg
                stroke fill ty) as [[x1 dwg1] | e]; cbn [bind]; [| reflexivity].
    apply IH. intros c' H1 H2. apply Hsp; lia.
  - apply IH. intros c' H1 H2. apply Hsp; lia.
Qed.

Lemma rows_loop_ext
    (width margin gutter : R) (stroke fill : string) (sp1 sp2 : list (Z * Z))
    (ty : string) (params : dict) (all : list Z) :
  (forall r c, (0 <= r < Z.of_nat (List.length all))%Z -> (0 <= c)%Z ->
               (c + 1 < nth (Z.to_nat r) all 0)%Z ->
               coord_in (r, c) sp1 = coord_in (r, c) sp2) ->
  forall (rows pre : list Z) (ph y : R) (dwg : World),
    all = pre ++ rows ->
    rows_loop width margin gutter stroke fill sp1 ty params rows
      (Z.of_nat (List.length pre)) ph y dwg
    = rows_loop width margin gutter stroke fill sp2 ty params rows
        (Z.of_nat (List.length pre)) ph y dwg.
Proof.
  intros Hsp.
  induction rows as [| n rows IH]; intros pre ph y dwg Hall; [reflexivity |].
  cbn [rows_loop].
  destruct (py_div (width - 2 * margin - (IZR n - 1) * gutter) (IZR n))
    as [spw | e]; cbn [bind]; [| reflexivity].
  rewrite (cols_loop_ext gutter stroke fill sp1 sp2 ty params
             (Z.of_nat (List.length pre)) n spw ph y).
  2:{ intros c' H1 H2. apply Hsp; [| lia |].
      - subst all. rewrite length_app. cbn [List.length]. lia.
      - subst all. rewrite Nat2Z.id, nth_middle. exact H2. }
  destruct (cols_loop gutter stroke fill sp2 ty params (Z.to_nat n)
              (Z.of_nat (List.length pre)) n spw ph y 0 margin dwg)
    as [dwg1 | e]; cbn [bind]; [| reflexivity].
  specialize (IH (pre ++ [n]) ph (y + ph + gutter) dwg1).
  rewrite length_app in IH. cbn [List.length] in IH.
  rewrite Nat2Z.inj_add in IH. cbn in IH.
  apply IH. subst all. now rewrite <- app_assoc.
Qed.

Lemma coord_eqb_eq (a b : Z * Z) : coord_eqb a b = true -> a = b.
Proof.
  unfold coord_eqb. intro H. apply andb_true_iff in H as [H1 H2].
  apply Z.eqb_eq in H1, H2. destruct a, b; cbn in *; congruence.
Qed.

Lemma coord_in_filter (f : Z * Z -> bool) (rc : Z * Z) (sp : list (Z * Z)) :
  f rc = true -> coord_in rc (filter f sp) = coord_in rc sp.
Proof.
  intro Hf. unfold coord_in.
  induction sp as [| a sp IH]; [reflexivity |].
  cbn [filter existsb]. destruct (f a) eqn:Ha.
  - cbn [existsb]. now rewrite IH.
  - rewrite IH. destruct (coord_eqb rc a) eqn:E; [| reflexivity].
    apply coord_eqb_eq in E. subst a. congruence.
Qed.

(** Split coordinates that name no existing row, a negative column, or a
    column without a right neighbour are ignored: the page is the same as
    with those coordinates removed from the list.  The layout never splits
    outside the grid, even when its caller did not validate the list. *)
Theorem make_comic_page_ignores_unreachable_splits
    (width height margin gutter : R) (bg stroke fill : string)
    (split_panels : list (Z * Z)) (ty : string) (params : dict)
    (filename : string) (rows : list Z) :
  make_comic_page width height margin gutter bg stroke fill split_panels
    ty params filename rows
  = make_comic_page width height margin gutter bg stroke fill
      (filter (split_reachable rows) split_panels) ty params filename rows.
Proof.
  unfold make_comic_page.
  destruct (Z.of_nat (List.length rows) =? 0)%Z; [reflexivity |].
  destruct (py_div _ _) as [ph | e]; cbn [bind]; [| reflexivity].
  rewrite (rows_loop_ext width margin gutter stroke fill split_panels
             (filter (split_reachable rows) split_panels) ty params rows)
    with (pre := @nil Z); [reflexivity | | reflexivity].
  intros r c Hr Hc Hn. symmetry. apply coord_in_filter.
  unfold split_reachable; cbn [fst snd].
  repeat (apply andb_true_iff; split);
    first [apply Z.leb_le | apply Z.ltb_lt]; lia.
Qed.

Lemma draw_split_panels_unknown
    (x y w h g : R) (params : dict) (dwg : World) (stroke fill ty : string) :
  ~ known_style ty ->
  draw_split_panels x y w h g params dwg stroke fill ty
  = Ok (x_end_p2 x w g, print (unknown_split_message ty) dwg).
Proof.
  intro H. unfold draw_split_panels.
  rewrite split_points_unknown; [reflexivity | | |];
    intro E; apply H; unfold known_style; auto.
Qed.

Lemma cols_loop_holes
    (gutter : R) (stroke fill : string) (split_panels : list (Z * Z))
    (ty : string) (params : dict) (r n : Z) (spw ph y : R) :
  ~ known_style ty ->
  forall (fuel : nat) (c : Z) (x : R) (dwg : World),
    (Z.to_nat (n - c) <= fuel)%nat ->
    exists rects errs,
      cols_loop gutter stroke fill split_panels ty params fuel r n spw ph y
        c x dwg
      = Ok (mkWorld (shapes dwg ++ rects) (stdout dwg ++ errs) (saved_as dwg))
      /\ Forall is_rect rects
      /\ Forall (eq (unknown_split_message ty)) errs
      /\ (List.length rects + 2 * List.length errs = Z.to_nat (n - c))%nat.
Proof.
  intros Hty.
  induction fuel as [| fuel IH]; intros c x dwg Hfuel.
  - cbn [cols_loop]. destruct (Z.ltb_spec c n) as [Hlt | Hge]; [lia |].
    exists [], []. rewrite !app_nil_r, world_eta.
    repeat split; try constructor. cbn. lia.
  - cbn [cols_loop]. destruct (Z.ltb_spec c n) as [Hlt | Hge].
    2:{ exists [], []. rewrite !app_nil_r, world_eta.
        repeat split; try constructor. cbn. lia. }
    destruct (coord_in (r, c) split_panels && (c + 1 <? n)%Z) eqn:Hsplit.
    + apply andb_true_iff in Hsplit as [_ H1]. apply Z.ltb_lt in H1.
      rewrite draw_split_panels_unknown by exact Hty. cbn [bind].
      edestruct (IH (c + 2)%Z) as (rects & errs & Hr & HR & HE & Hlen); [lia |].
      rewrite Hr. cbn [print shapes stdout saved_as].
      exists rects, (unknown_split_message ty :: errs).
      rewrite <- app_assoc. split; [reflexivity |].
      split; [exact HR |].
      split; [constructor; [reflexivity | exact HE] |]. cbn [List.length]. lia.
    + edestruct (IH (c + 1)%Z) as (rects & errs & Hr & HR & HE & Hlen); [lia |].
      rewrite Hr. cbn [dwg_add shapes stdout saved_as].
      eexists (_ :: rects), errs.
      rewrite <- app_assoc. split; [reflexivity |].
      split; [constructor; [exact I | exact HR] |].
      split; [exact HE |]. cbn [List.length]. lia.
Qed.

Lemma rows_loop_holes
    (width margin gutter : R) (stroke fill : string)
    (split_panels : list (Z * Z)) (ty : string) (params : dict) :
  ~ known_style ty ->
  forall (rows : list Z) (r : Z) (ph y : R) (dwg : World),
    Forall (fun n => n <> 0%Z) rows ->
    exists rects errs,
      rows_loop width margin gutter stroke fill split_panels ty params
        rows r ph y dwg
      = Ok (mkWorld (shapes dwg ++ rects) (stdout dwg ++ errs) (saved_as dwg))
      /\ Forall is_rect rects
      /\ Forall (eq (unknown_split_message ty)) errs
      /\ (List.length rects + 2 * List.length errs = panel_count rows)%nat.
Proof.
  intros Hty.
  induction rows as [| n rows IH]; intros r ph y dwg Hrows.
  - cbn [rows_loop]. exists [], []. rewrite !app_nil_r, world_eta.
    repeat split; constructor.
  - inversion Hrows as [| ? ? Hn Hrest]; subst.
    cbn [rows_loop].
    rewrite py_div_nonzero by (apply not_0_IZR; exact Hn). cbn [bind].
    edestruct (cols_loop_holes gutter stroke fill split_panels ty params r n)
      as (rects1 & errs1 & Hd & HR1 & HE1 & Hlen1); [exact Hty | | rewrite Hd];
      [lia |].
    cbn [bind].
    edestruct (IH (r + 1)%Z) as (rects2 & errs2 & Hr & HR2 & HE2 & Hlen2);
      [exact Hrest |].
    rewrite Hr. cbn [shapes stdout saved_as].
    exists (rects1 ++ rects2), (errs1 ++ errs2).
    rewrite <- !app_assoc. split; [reflexivity |].
    split; [apply Forall_app; auto |].
    split; [apply Forall_app; auto |].
    rewrite !length_app. unfold panel_count in *. cbn [map].
    change (list_sum (Z.to_nat n :: map Z.to_nat rows))
      with (Z.to_nat n + list_sum (map Z.to_nat rows))%nat.
    rewrite Z.sub_0_r in Hlen1. lia.
Qed.

(** With a style tag that is none of the three known ones the page is
    still produced, but it holds rectangles only: each split pair that the
    column walk reaches leaves its two cells empty and prints one error
    line instead.  So the number of panel rectangles plus twice the number
    of error lines is the number of panels asked for. *)
Theorem make_comic_page_unknown_style_holes
    (width height margin gutter : R) (bg stroke fill : string)
    (split_panels : list (Z * Z)) (ty : string) (params : dict)
    (filename : string) (rows : list Z) :
  ~ known_style ty ->
  Forall (fun n => n <> 0%Z) rows ->
  exists dwg rects errs last_line,
    make_comic_page width height margin gutter bg stroke fill split_panels
      ty params filename rows = Ok dwg
    /\ shapes dwg = background_rect width height bg :: rects
    /\ Forall is_rect rects
    /\ stdout dwg = errs ++ [last_line]
    /\ Forall (eq (unknown_split_message ty)) errs
    /\ (List.length rects + 2 * List.length errs = panel_count rows)%nat.
Proof.
  intros Hty Hrows. unfold make_comic_page.
  destruct (Z.eqb_spec (Z.of_nat (List.length rows)) 0) as [E | N].
  - destruct rows; [| discriminate E].
    eexists. exists [], []. eexists. split; [reflexivity |].
    repeat split; constructor.
  - rewrite py_div_nonzero by (apply not_0_IZR; exact N). cbn [bind].
    edestruct (rows_loop_holes width margin gutter stroke fill split_panels
                 ty params Hty rows)
      as (rects & errs & Hr & HR & HE & Hlen); [exact Hrows |].
    rewrite Hr. cbn [bind].
    eexists. exists rects, errs. eexists. split; [reflexivity |].
    cbn [print dwg_save dwg_add new_drawing shapes stdout app].
    repeat split; auto.
Qed.

Lemma make_comic_page_unknown_style_holes_witness :
  ~ known_style "wavy"
  /\ Forall (fun n => n <> 0%Z) [1; 2; 3]%Z
  /\ exists dwg rects errs last_line,
       make_comic_page 1920 1080 20 10 "#ffffff" "#000000" "none"
         [(1, 0)%Z] "wavy" [] "comic_page.svg" [1; 2; 3]%Z = Ok dwg
       /\ shapes dwg = background_rect 1920 1080 "#ffffff" :: rects
       /\ Forall is_rect rects
       /\ stdout dwg = errs ++ [last_line]
       /\ Forall (eq (unknown_split_message "wavy")) errs
       /\ (List.length rects + 2 * List.length errs = panel_count [1; 2; 3]%Z)%nat.
Proof.
  assert (Hty : ~ known_style "wavy")
    by (intros [E | [E | E]]; discriminate E).
  assert (H : Forall (fun n => n <> 0%Z) [1; 2; 3]%Z)
    by (repeat constructor; discriminate).
  split; [exact Hty |]. split; [exact H |].
  exact (make_comic_page_unknown_style_holes 1920 1080 20 10 "#ffffff" "#000000"
           "none" [(1, 0)%Z] "wavy" [] "comic_page.svg" [1; 2; 3]%Z Hty H).
Defined.

(** * Further properties of the bubbles *)

(** The clock angle lies in [[0, 360)] for every hour and every minute
    between 0 and 59, and it is the same twelve hours later; so is the one
    of [speechbobs.py], which is the same function. *)
Theorem time_to_angle_range (hour minute : Z) :
  (0 <= minute <= 59)%Z ->
  0 <= time_to_angle hour minute < 360
  /\ time_to_angle (hour + 12) minute = time_to_angle hour minute
  /\ SpeechBobs.time_to_angle hour minute = time_to_angle hour minute.
Proof.
  intros [Hm0 Hm59]. unfold SpeechBobs.time_to_angle, time_to_angle. cbv zeta.
  pose proof (Z.mod_pos_bound hour 12 ltac:(lia)) as [Hh0 Hh12].
  assert (H1 : 0 <= IZR (hour mod 12) <= 11) by (split; apply IZR_le; lia).
  assert (H2 : 0 <= IZR minute <= 59) by (split; apply IZR_le; lia).
  split; [lra |]. split; [| reflexivity].
  replace (hour + 12)%Z with (hour + 1 * 12)%Z by lia.
  now rewrite Z_mod_plus_full.
Qed.

Lemma time_to_angle_range_witness :
  (0 <= 45 <= 59)%Z
  /\ 0 <= time_to_angle 3 45 < 360
  /\ time_to_angle (3 + 12) 45 = time_to_angle 3 45
  /\ SpeechBobs.time_to_angle 3 45 = time_to_angle 3 45.
Proof.
  assert (H : (0 <= 45 <= 59)%Z) by lia.
  split; [exact H | exact (time_to_angle_range 3 45 H)].
Defined.

(** Two clock times with hours 1 to 12 and minutes 0 to 59 that give the
    same angle are the same time: no two positions of the tail are
    confused. *)
Theorem time_to_angle_injective (h1 m1 h2 m2 : Z) :
  (1 <= h1 <= 12)%Z -> (0 <= m1 <= 59)%Z ->
  (1 <= h2 <= 12)%Z -> (0 <= m2 <= 59)%Z ->
  time_to_angle h1 m1 = time_to_angle h2 m2 ->
  h1 = h2 /\ m1 = m2.
Proof.
  intros Hh1 Hm1 Hh2 Hm2. unfold time_to_angle. cbv zeta. intro E.
  assert (EZ : (60 * (h1 mod 12) + m1 = 60 * (h2 mod 12) + m2)%Z).
  { apply eq_IZR. rewrite !plus_IZR, !mult_IZR. lra. }
  assert (M1 : (h1 mod 12 = if h1 =? 12 then 0 else h1)%Z).
  { destruct (Z.eqb_spec h1 12) as [-> | N]; [reflexivity |].
    apply Z.mod_small. lia. }
  assert (M2 : (h2 mod 12 = if h2 =? 12 then 0 else h2)%Z).
  { destruct (Z.eqb_spec h2 12) as [-> | N]; [reflexivity |].
    apply Z.mod_small. lia. }
  rewrite M1, M2 in EZ.
  destruct (Z.eqb_spec h1 12), (Z.eqb_spec h2 12); lia.
Qed.

Lemma time_to_angle_injective_witness :
  (1 <= 3 <= 12)%Z /\ (0 <= 45 <= 59)%Z
  /\ time_to_angle 3 45 = time_to_angle 3 45
  /\ 3%Z = 3%Z /\ 45%Z = 45%Z.
Proof.
  assert (Hh : (1 <= 3 <= 12)%Z) by lia.
  assert (Hm : (0 <= 45 <= 59)%Z) by lia.
  split; [exact Hh |]. split; [exact Hm |]. split; [reflexivity |].
  exact (time_to_angle_injective 3 45 3 45 Hh Hm Hh Hm eq_refl).
Defined.

Lemma radians_full_turn (a : R) : radians (a + 360) = radians a + 2 * PI.
Proof. unfold radians. field. Qed.

Lemma sin_full_turn (x c : R) : sin (x + 2 * PI + c) = sin (x + c).
Proof.
  replace (x + 2 * PI + c) with (x + c + 2 * PI) by ring.
  rewrite sin_plus, sin_2PI, cos_2PI. ring.
Qed.

Lemma cos_full_turn (x c : R) : cos (x + 2 * PI + c) = cos (x + c).
Proof.
  replace (x + 2 * PI + c) with (x + c + 2 * PI) by ring.
  rewrite cos_plus, sin_2PI, cos_2PI. ring.
Qed.

Ltac full_turn :=
  rewrite ?radians_full_turn;
  repeat match goal with
    | |- context [sin (?x + 2 * PI - ?c)] =>
        replace (sin (x + 2 * PI - c)) with (sin (x - c))
          by (unfold Rminus; now rewrite sin_full_turn)
    | |- context [cos (?x + 2 * PI - ?c)] =>
        replace (cos (x + 2 * PI - c)) with (cos (x - c))
          by (unfold Rminus; now rewrite cos_full_turn)
    | |- context [sin (?x + 2 * PI + ?c)] => rewrite (sin_full_turn x c)
    | |- context [cos (?x + 2 * PI + ?c)] => rewrite (cos_full_turn x c)
    | |- context [sin (?x + 2 * PI)] =>
        replace (sin (x + 2 * PI)) with (sin x)
          by (rewrite <- (Rplus_0_r (x + 2 * PI)), sin_full_turn;
              now rewrite Rplus_0_r)
    | |- context [cos (?x + 2 * PI)] =>
        replace (cos (x + 2 * PI)) with (cos x)
          by (rewrite <- (Rplus_0_r (x + 2 * PI)), cos_full_turn;
              now rewrite Rplus_0_r)
    end.

(** A full turn changes nothing: angles 360 degrees apart give the same
    speech-bubble path (in both modules) and the same tail circles. *)
Theorem bubble_angle_full_turn (a ox oy t : R) :
  calculate_speech_bubble_path (a + 360) ox oy t
    = calculate_speech_bubble_path a ox oy t
  /\ SpeechBobs.calculate_full_bubble_path_from_angle (a + 360) ox oy t
     = SpeechBobs.calculate_full_bubble_path_from_angle a ox oy t
  /\ calculate_thought_bubble_tail (a + 360) ox oy t
     = calculate_thought_bubble_tail a ox oy t.
Proof.
  split; [| split].
  - unfold calculate_speech_bubble_path. cbv zeta. full_turn. reflexivity.
  - unfold SpeechBobs.calculate_full_bubble_path_from_angle. cbv zeta.
    full_turn. reflexivity.
  - rewrite !tail_unfold. unfold tail_bubble. cbv zeta. full_turn. reflexivity.
Qed.

Lemma dist_along_along (c : Point) (a d1 d2 : R) :
  dist (along c a d1) (along c a d2) = Rabs (d2 - d1).
Proof.
  unfold dist, along, norm. cbn [fst snd].
  replace ((fst c + d2 * sin a - (fst c + d1 * sin a)) ^ 2
           + (snd c - d2 * cos a - (snd c - d1 * cos a)) ^ 2)
    with ((d2 - d1)² * ((sin a)² + (cos a)²)) by (unfold Rsqr; ring).
  rewrite sin2_cos2, Rmult_1_r. apply sqrt_Rsqr_abs.
Qed.

(** The tail of the speech bubble: the tip lies in the clock direction of
    the angle at distance [RX + tail_length] from the bubble centre, the two
    control points at distance [RX + 0.6 * tail_length], two degrees to
    either side; the path ends where it starts, so it is closed without a
    closing command.  (For a non-negative tail length.) *)
Theorem speech_bubble_tail_geometry (a ox oy t : R) :
  0 <= t ->
  exists P1 P2 C1 C2 Tip,
    calculate_speech_bubble_path a ox oy t
      = [ MoveTo P1; ArcTo 150 100 0 true false P2; QuadTo C1 Tip; QuadTo C2 P1 ]
    /\ Tip = along (bubble_center ox oy) (radians a) (150 + t)
    /\ C1 = along (bubble_center ox oy) (radians a + radians 2) (150 + t * (6 / 10))
    /\ C2 = along (bubble_center ox oy) (radians a - radians 2) (150 + t * (6 / 10))
    /\ dist (bubble_center ox oy) Tip = 150 + t
    /\ dist (bubble_center ox oy) C1 = 150 + t * (6 / 10)
    /\ dist (bubble_center ox oy) C2 = 150 + t * (6 / 10).
Proof.
  intro Ht.
  exists (CENTER_X + ox + RX * sin (radians a - radians 5),
          CENTER_Y + oy - RY * cos (radians a - radians 5)),
         (CENTER_X + ox + RX * sin (radians a + radians 5),
          CENTER_Y + oy - RY * cos (radians a + radians 5)),
         (along (bubble_center ox oy) (radians a + radians 2) (150 + t * (6 / 10))),
         (along (bubble_center ox oy) (radians a - radians 2) (150 + t * (6 / 10))),
         (along (bubble_center ox oy) (radians a) (150 + t)).
  split; [reflexivity |].
  repeat split; apply dist_along; lra.
Qed.

Lemma speech_bubble_tail_geometry_witness :
  0 <= 15
  /\ exists P1 P2 C1 C2 Tip,
       calculate_speech_bubble_path 90 0 0 15
         = [ MoveTo P1; ArcTo 150 100 0 true false P2; QuadTo C1 Tip; QuadTo C2 P1 ]
       /\ Tip = along (bubble_center 0 0) (radians 90) (150 + 15)
       /\ C1 = along (bubble_center 0 0) (radians 90 + radians 2) (150 + 15 * (6 / 10))
       /\ C2 = along (bubble_center 0 0) (radians 90 - radians 2) (150 + 15 * (6 / 10))
       /\ dist (bubble_center 0 0) Tip = 150 + 15
       /\ dist (bubble_center 0 0) C1 = 150 + 15 * (6 / 10)
       /\ dist (bubble_center 0 0) C2 = 150 + 15 * (6 / 10).
Proof.
  assert (H : 0 <= 15) by lra.
  split; [exact H | exact (speech_bubble_tail_geometry 90 0 0 15 H)].
Defined.

(** The cloud outline is a closed path of one move and twelve arcs of
    radius 30, all with both flags clear; the last arc returns to the
    starting point, and every point of the outline lies within
    [0.9 * CLOUD_RADIUS = 117] of the offset centre in both coordinates. *)
Theorem cloud_path_closed (ox oy : R) :
  exists p0 arcs,
    calculate_cloud_path ox oy = MoveTo p0 :: arcs
    /\ List.length arcs = 12%nat
    /\ last arcs (MoveTo p0) = ArcTo 30 30 0 false false p0
    /\ Forall (fun seg => seg = ArcTo 30 30 0 false false (segment_end seg)) arcs
    /\ Forall (fun seg => within_square (bubble_center ox oy) 117 (segment_end seg))
         (calculate_cloud_path ox oy).
Proof.
  unfold calculate_cloud_path, cloud_points, cloud_arc. cbn [map app].
  do 2 eexists. split; [reflexivity |].
  split; [reflexivity |]. split; [reflexivity |].
  split.
  - repeat (apply Forall_cons; [reflexivity |]). apply Forall_nil.
  - repeat (apply Forall_cons;
            [ unfold within_square, bubble_center, CLOUD_RADIUS;
              cbn [segment_end fst snd]; split; apply Rabs_le; lra |]).
    apply Forall_nil.
Qed.

(** Consecutive tail circles are centred [tail_length / 3] apart.  As the
    radii are 11, 8 and 5, the first two circles overlap exactly when the
    tail length is below 57 and the last two exactly when it is below 39;
    with the default length 15 all three overlap. *)
Theorem thought_tail_spacing (a ox oy t : R) :
  0 <= t ->
  exists c0 c1 c2,
    calculate_thought_bubble_tail a ox oy t = [c0; c1; c2]
    /\ dist (circle_center c0) (circle_center c1) = t / 3
    /\ dist (circle_center c1) (circle_center c2) = t / 3
    /\ (dist (circle_center c0) (circle_center c1)
          < circle_radius c0 + circle_radius c1 <-> t < 57)
    /\ (dist (circle_center c1) (circle_center c2)
          < circle_radius c1 + circle_radius c2 <-> t < 39).
Proof.
  intro Ht. rewrite tail_unfold. do 3 eexists. split; [reflexivity |].
  rewrite !tail_bubble_center, !tail_bubble_radius, !dist_along_along.
  unfold tail_distance. simpl INR.
  replace (CLOUD_RADIUS + t / 3 + 1 * (t / 3) - (CLOUD_RADIUS + t / 3 + 0 * (t / 3)))
    with (t / 3) by field.
  replace (CLOUD_RADIUS + t / 3 + (1 + 1) * (t / 3)
           - (CLOUD_RADIUS + t / 3 + 1 * (t / 3)))
    with (t / 3) by field.
  rewrite Rabs_pos_eq by lra.
  repeat split; intros; lra.
Qed.

Lemma thought_tail_spacing_witness :
  0 <= 15
  /\ exists c0 c1 c2,
       calculate_thought_bubble_tail 90 0 0 15 = [c0; c1; c2]
       /\ dist (circle_center c0) (circle_center c1) = 15 / 3
       /\ dist (circle_center c1) (circle_center c2) = 15 / 3
       /\ (dist (circle_center c0) (circle_center c1)
             < circle_radius c0 + circle_radius c1 <-> 15 < 57)
       /\ (dist (circle_center c1) (circle_center c2)
             < circle_radius c1 + circle_radius c2 <-> 15 < 39).
Proof.
  assert (H : 0 <= 15) by lra.
  split; [exact H | exact (thought_tail_spacing 90 0 0 15 H)].
Defined.

(** A bubble type that is neither ['SPEECH'] nor ['THOUGHT'] is not
    rejected: the file is still saved, holding the text alone. *)
Theorem create_custom_bubble_unknown_type
    (bubble_type : string) (a : R) (hour minute : Z) (shadow_size : R)
    (shade_level : Z) (t : R) (text : string) :
  bubble_type <> "SPEECH"%string -> bubble_type <> "THOUGHT"%string ->
  shapes (create_custom_bubble bubble_type a hour minute shadow_size
            shade_level t text) = [ bubble_text_shape text ]
  /\ saved_as (create_custom_bubble bubble_type a hour minute shadow_size
                 shade_level t text) = Some FILENAME.
Proof.
  intros H1 H2. apply String.eqb_neq in H1, H2.
  unfold create_custom_bubble. rewrite H1, H2. split; reflexivity.
Qed.

Lemma create_custom_bubble_unknown_type_witness :
  "SHOUT"%string <> "SPEECH"%string /\ "SHOUT"%string <> "THOUGHT"%string
  /\ shapes (create_custom_bubble "SHOUT" 90 3 0 5 5 15 "ZAP!")
     = [ bubble_text_shape "ZAP!" ]
  /\ saved_as (create_custom_bubble "SHOUT" 90 3 0 5 5 15 "ZAP!") = Some FILENAME.
Proof.
  assert (H1 : "SHOUT"%string <> "SPEECH"%string) by discriminate.
  assert (H2 : "SHOUT"%string <> "THOUGHT"%string) by discriminate.
  split; [exact H1 |]. split; [exact H2 |].
  exact (create_custom_bubble_unknown_type "SHOUT" 90 3 0 5 5 15 "ZAP!" H1 H2).
Defined.

Lemma shadow_color_default (lvl : Z) :
  (lvl < 1 \/ 10 <= lvl)%Z ->
  colors_get SHADOW_COLORS lvl "#000000" = "#000000"%string.
Proof.
  intro H. unfold SHADOW_COLORS. cbn [colors_get].
  repeat match goal with
    | |- context [(?k =? lvl)%Z] =>
        destruct (Z.eqb_spec k lvl); [try lia; try reflexivity |]
    end.
  reflexivity.
Qed.

(** A shade level outside 1..9 gives a black shadow: level 10 is black in
    the palette, and any level that is not a key falls back to black.  In
    both programs the shadow of the speech bubble is then filled black and
    drawn before the main shape. *)
Theorem shadow_black_outside_palette
    (a : R) (hour minute : Z) (shadow_size : R) (shade_level : Z) (t : R)
    (text : string) :
  (shade_level < 1 \/ 10 <= shade_level)%Z ->
  (exists shadow st rest,
      shapes (SpeechBobs.create_custom_bubble a hour minute shadow_size
                shade_level t text) = Path shadow st :: rest
      /\ fill st = "#000000"%string)
  /\ (exists shadow st rest,
        shapes (create_custom_bubble "SPEECH" a hour minute shadow_size
                  shade_level t text) = Path shadow st :: rest
        /\ fill st = "#000000"%string).
Proof.
  intro H. split.
  - unfold SpeechBobs.create_custom_bubble. cbv zeta.
    change SpeechBobs.SHADOW_COLORS with SHADOW_COLORS.
    rewrite (shadow_color_default shade_level H).
    do 3 eexists. split; reflexivity.
  - unfold create_custom_bubble. cbv zeta.
    rewrite (shadow_color_default shade_level H).
    do 3 eexists. split; reflexivity.
Qed.

Lemma shadow_black_outside_palette_witness :
  (42 < 1 \/ 10 <= 42)%Z
  /\ (exists shadow st rest,
        shapes (SpeechBobs.create_custom_bubble 90 3 0 5 42 15 "ZAP!")
          = Path shadow st :: rest
        /\ fill st = "#000000"%string)
  /\ (exists shadow st rest,
        shapes (create_custom_bubble "SPEECH" 90 3 0 5 42 15 "ZAP!")
          = Path shadow st :: rest
        /\ fill st = "#000000"%string).
Proof.
  assert (H : (42 < 1 \/ 10 <= 42)%Z) by lia.
  split; [exact H | exact (shadow_black_outside_palette 90 3 0 5 42 15 "ZAP!" H)].
Defined.

(** The two programs draw the same speech bubble: the same shadow path,
    main path and text, with the same fills and strokes; only the shadow's
    stroke width is written out (as 0) in [speechbobs.py]. *)
Theorem speech_bubble_programs_agree
    (a : R) (hour minute : Z) (shadow_size : R) (shade_level : Z) (t : R)
    (text : string) :
  exists shadow main st_shadow st_shadow' st_main txt,
    shapes (SpeechBobs.create_custom_bubble a hour minute shadow_size
              shade_level t text)
    = [ Path shadow st_shadow; Path main st_main; txt ]
    /\ shapes (create_custom_bubble "SPEECH" a hour minute shadow_size
                 shade_level t text)
       = [ Path shadow st_shadow'; Path main st_main; txt ]
    /\ fill st_shadow = fill st_shadow'
    /\ stroke st_shadow = stroke st_shadow'
    /\ stroke_width st_shadow = Some 0 /\ stroke_width st_shadow' = None.
Proof.
  do 6 eexists. split; [reflexivity |]. split; [reflexivity |].
  repeat split.
Qed.



